(** * MemoRable MCP client: a shallow embedding of
      [src/clients/python/memorable_client.py] and its transport properties.

    The client speaks JSON-RPC 2.0 over HTTP.  Python values are embedded as
    the inductive [value]; the mutable client object, the remote server and
    the log of requests that left the client form the [World] threaded by a
    state-and-exception monad [M].  The library routines the client calls
    ([json.loads], [datetime.fromisoformat], the HTTP POST) are interfaces
    (type classes), so every general statement holds for any implementation
    of them; small executable instances are given for closed examples. *)

From Stdlib Require Import String Ascii ZArith List Lia Bool.
Import ListNotations.
Local Open Scope string_scope.
Local Open Scope Z_scope.
Set Warnings "-register-all".

(** ** Python values *)

(** What [json.loads] and [resp.json()] produce, and what tool arguments are
    made of.  [VNone] is Python's [None] (JSON [null]); a float is kept by
    its literal since no operation of the client computes with one. *)
Inductive value : Type :=
| VNone
| VBool (b : bool)
| VInt (n : Z)
| VFloat (lit : string)
| VStr (s : string)
| VList (items : list value)
| VDict (fields : list (string * value)).

(** The exceptions the client can meet.  All are subclasses of Python's
    [Exception]; [MCP_error p] is [Exception(f"MCP error: {p}")]. *)
Inductive exn : Type :=
| MCP_error (payload : value)
| TransportError (why : string)
| JSONDecodeError
| TypeError
| AttributeError
| KeyError
| ValueError.

(** Outcome of a Python call: a returned value or a raised exception. *)
Inductive res (A : Type) : Type :=
| Return (a : A)
| Raise (e : exn).
Arguments Return {A} a.
Arguments Raise {A} e.

Definition res_bind {A B : Type} (r : res A) (k : A -> res B) : res B :=
  match r with
  | Return a => k a
  | Raise e => Raise e
  end.

(** ** String built-ins *)

Definition LF : ascii := ascii_of_nat 10.
Definition DQ : ascii := ascii_of_nat 34.
Definition lf : string := String LF EmptyString.
Definition dq : string := String DQ EmptyString.

(** [s.startswith(p)] *)
Definition startswith (p s : string) : bool := String.prefix p s.

(** [s[n:]] *)
Fixpoint str_drop (n : nat) (s : string) : string :=
  match n, s with
  | O, _ => s
  | S _, EmptyString => EmptyString
  | S k, String _ s' => str_drop k s'
  end.

(** [sub in s] on strings *)
Fixpoint str_in (sub s : string) : bool :=
  String.prefix sub s ||
  match s with
  | EmptyString => false
  | String _ s' => str_in sub s'
  end.

(** [s.split(sep)] for a one-character separator; never the empty list. *)
Fixpoint str_split (sep : ascii) (s : string) : list string :=
  match s with
  | EmptyString => [EmptyString]
  | String a s' =>
      if Ascii.eqb a sep then EmptyString :: str_split sep s'
      else match str_split sep s' with
           | h :: t => String a h :: t
           | [] => [String a EmptyString]
           end
  end.

(** [s.replace(old, new)] for a non-empty [old]: every occurrence, scanning
    left to right without overlap.  [skip] counts the characters of a match
    still to be dropped. *)
Fixpoint str_replace_from (skip : nat) (old new s : string) : string :=
  match s with
  | EmptyString => EmptyString
  | String a s' =>
      match skip with
      | S k => str_replace_from k old new s'
      | O =>
          if String.prefix old s
          then new ++ str_replace_from (String.length old - 1) old new s'
          else String a (str_replace_from O old new s')
      end
  end.

Definition str_replace (old new s : string) : string :=
  str_replace_from O old new s.

(** ** Dict and container built-ins *)

Fixpoint lookup (k : string) (d : list (string * value)) : option value :=
  match d with
  | [] => None
  | (k', v) :: d' => if String.eqb k k' then Some v else lookup k d'
  end.

(** [d.get(k, default)] *)
Definition dict_get (d : list (string * value)) (k : string) (default : value)
  : value :=
  match lookup k d with
  | Some v => v
  | None => default
  end.

(** [k in d] on a dict *)
Definition has_key (k : string) (d : list (string * value)) : bool :=
  match lookup k d with
  | Some _ => true
  | None => false
  end.

Definition is_str (k : string) (v : value) : bool :=
  match v with
  | VStr s => String.eqb k s
  | _ => false
  end.

(** [k in data] for a string [k] and any decoded document: key membership on
    a dict, element membership on a list, substring on a string, and
    [TypeError] on [None], booleans and numbers. *)
Definition py_in (k : string) (data : value) : res bool :=
  match data with
  | VDict d => Return (has_key k d)
  | VList l => Return (existsb (is_str k) l)
  | VStr s => Return (str_in k s)
  | VNone | VBool _ | VInt _ | VFloat _ => Raise TypeError
  end.

(** [data[k]] for a string [k]: only a dict can be indexed by a string. *)
Definition py_getitem (data : value) (k : string) : res value :=
  match data with
  | VDict d =>
      match lookup k d with
      | Some v => Return v
      | None => Raise KeyError
      end
  | _ => Raise TypeError
  end.

(** [x.get(k, default)] on any value: an attribute of dicts only. *)
Definition py_get (x : value) (k : string) (default : value) : res value :=
  match x with
  | VDict d => Return (dict_get d k default)
  | _ => Raise AttributeError
  end.

(** [s or ""] and the truth value of an optional string. *)
Definition or_empty (s : option string) : string :=
  match s with
  | Some s' => s'
  | None => EmptyString
  end.

Definition truthy_str (s : option string) : bool :=
  match s with
  | Some (String _ _) => true
  | _ => false
  end.

(** ** The HTTP layer as the client sees it *)

(** What [session.post(url, json=payload, headers=headers)] sends. *)
Record Request : Type := {
  req_url : string;
  req_json : value;
  req_headers : list (string * string);
}.

(** The response object: the value of [resp.headers.get("Mcp-Session-Id")],
    [resp.status], [resp.content_type], and what awaiting [resp.text()] and
    [resp.json()] gives (either may raise). *)
Record Response : Type := {
  resp_session_id : option string;
  resp_status : Z;
  resp_content_type : option string;
  resp_text : res string;
  resp_json : res value;
}.

(** The remote end.  [Net] is the state of the network and server;
    [session_post] answers one POST, by a response or by an exception. *)
Class Remote : Type := {
  Net : Type;
  session_post : Net -> Request -> res Response * Net;
}.

(** [json.loads] on a string; [None] is [json.JSONDecodeError]. *)
Class JsonLib : Type := json_loads : string -> option value.

(** An [aiohttp.ClientSession]. *)
Record ClientSession : Type := { closed : bool }.

(** The attributes of a [MemoRableClient] object. *)
Record MemoRableClient : Type := {
  mcp_url : string;
  entity : string;
  device_id : string;
  device_type : string;
  _session : option ClientSession;
  _mcp_session_id : option string;
  _request_id : Z;
  _initialized : bool;
}.

Definition MCP_PROTOCOL_VERSION : string := "2025-03-26".

(** [MemoRableClient.__init__] *)
Definition __init__ (url ent dev_id dev_type : string) : MemoRableClient :=
  {| mcp_url := url; entity := ent; device_id := dev_id;
     device_type := dev_type; _session := None; _mcp_session_id := None;
     _request_id := 0; _initialized := false |}.

Definition set_session (s : option ClientSession) (c : MemoRableClient) :=
  {| mcp_url := mcp_url c; entity := entity c; device_id := device_id c;
     device_type := device_type c; _session := s;
     _mcp_session_id := _mcp_session_id c; _request_id := _request_id c;
     _initialized := _initialized c |}.

Definition set_mcp_session_id (sid : option string) (c : MemoRableClient) :=
  {| mcp_url := mcp_url c; entity := entity c; device_id := device_id c;
     device_type := device_type c; _session := _session c;
     _mcp_session_id := sid; _request_id := _request_id c;
     _initialized := _initialized c |}.

Definition set_request_id (n : Z) (c : MemoRableClient) :=
  {| mcp_url := mcp_url c; entity := entity c; device_id := device_id c;
     device_type := device_type c; _session := _session c;
     _mcp_session_id := _mcp_session_id c; _request_id := n;
     _initialized := _initialized c |}.

Definition set_initialized (b : bool) (c : MemoRableClient) :=
  {| mcp_url := mcp_url c; entity := entity c; device_id := device_id c;
     device_type := device_type c; _session := _session c;
     _mcp_session_id := _mcp_session_id c; _request_id := _request_id c;
     _initialized := b |}.

(** ** The client's methods *)

Section Client.
Context {remote : Remote} {jsonlib : JsonLib}.

(** One client object [self], the remote end, and the requests posted so
    far, oldest first. *)
Record World : Type := {
  self : MemoRableClient;
  net : Net;
  sent : list Request;
}.

(** A method body: it reads and writes the world and returns or raises.
    As in Python, what was written before a [raise] stays written. *)
Definition M (A : Type) : Type := World -> res A * World.

Definition ret {A : Type} (a : A) : M A := fun w => (Return a, w).

Definition raise {A : Type} (e : exn) : M A := fun w => (Raise e, w).

Definition bind {A B : Type} (m : M A) (k : A -> M B) : M B :=
  fun w =>
    match m w with
    | (Return a, w') => k a w'
    | (Raise e, w') => (Raise e, w')
    end.

(** [try: body except Exception as e: handler(e)] *)
Definition try_except {A : Type} (body : M A) (handler : exn -> M A) : M A :=
  fun w =>
    match body w with
    | (Return a, w') => (Return a, w')
    | (Raise e, w') => handler e w'
    end.

Definition lift {A : Type} (r : res A) : M A := fun w => (r, w).

Definition get_self : M MemoRableClient := fun w => (Return (self w), w).

Definition modify_self (f : MemoRableClient -> MemoRableClient) : M unit :=
  fun w => (Return tt, {| self := f (self w); net := net w; sent := sent w |}).

(** The POST itself: the request is logged, the remote end answers. *)
Definition post (rq : Request) : M Response :=
  fun w =>
    let (r, n') := session_post (net w) rq in
    (r, {| self := self w; net := n'; sent := sent w ++ [rq] |}).

Notation "x <- m ;; k" := (bind m (fun x => k))
  (at level 61, m at next level, right associativity).
Notation "m ;;; k" := (bind m (fun _ => k))
  (at level 61, right associativity).

Definition _next_id : M Z :=
  me <- get_self ;;
  modify_self (set_request_id (_request_id me + 1)) ;;;
  me' <- get_self ;;
  ret (_request_id me').

Definition _get_session : M ClientSession :=
  me <- get_self ;;
  match _session me with
  | Some s =>
      if closed s
      then modify_self (set_session (Some {| closed := false |})) ;;;
           ret {| closed := false |}
      else ret s
  | None =>
      modify_self (set_session (Some {| closed := false |})) ;;;
      ret {| closed := false |}
  end.

(** The body of the [for line in body.split("\n")] loop of the SSE branch,
    with its early [return] and [raise]; falling off the end is
    [return None]. *)
Fixpoint sse_scan (lines : list string) : res value :=
  match lines with
  | [] => Return VNone
  | line :: rest =>
      if startswith "data: " line then
        match json_loads (str_drop 6 line) with
        | None => Raise JSONDecodeError
        | Some data =>
            res_bind (py_in "result" data) (fun has_result =>
            if has_result then py_getitem data "result"
            else
              res_bind (py_in "error" data) (fun has_error =>
              if has_error
              then res_bind (py_getitem data "error")
                     (fun p => Raise (MCP_error p))
              else sse_scan rest))
        end
      else sse_scan rest
  end.

(** The plain-JSON branch after [data = await resp.json()]. *)
Definition extract_result (data : value) : res value :=
  res_bind (py_in "result" data) (fun has_result =>
  if has_result then py_getitem data "result"
  else
    res_bind (py_in "error" data) (fun has_error =>
    if has_error
    then res_bind (py_getitem data "error") (fun p => Raise (MCP_error p))
    else Return data)).

(** The JSON-RPC envelope built at the top of [_mcp_request]. *)
Definition envelope (method : string) (id : option Z) (params : option value)
  : value :=
  VDict ([("jsonrpc", VStr "2.0"); ("method", VStr method)]
         ++ match id with Some i => [("id", VInt i)] | None => [] end
         ++ match params with Some p => [("params", p)] | None => [] end).

Definition request_headers (sid : option string) : list (string * string) :=
  [("Content-Type", "application/json");
   ("Accept", "application/json, text/event-stream")]
  ++ (if truthy_str sid then [("Mcp-Session-Id", or_empty sid)] else []).

(** What [_mcp_request] does with the response inside the [async with]. *)
Definition decode (is_notification : bool) (resp : Response) : M value :=
  (if truthy_str (resp_session_id resp)
   then modify_self (set_mcp_session_id (resp_session_id resp))
   else ret tt) ;;;
  if is_notification || (resp_status resp =? 202) || (resp_status resp =? 204)
  then ret VNone
  else
    let content_type := or_empty (resp_content_type resp) in
    if str_in "text/event-stream" content_type then
      body <- lift (resp_text resp) ;;
      lift (sse_scan (str_split LF body))
    else
      data <- lift (resp_json resp) ;;
      lift (extract_result data).

Definition _mcp_request (method : string) (params : option value)
  (is_notification : bool) : M value :=
  _ <- _get_session ;;
  id <- (if negb is_notification
         then (i <- _next_id ;; ret (Some i))
         else ret None) ;;
  me <- get_self ;;
  resp <- post {| req_url := mcp_url me;
                  req_json := envelope method id params;
                  req_headers := request_headers (_mcp_session_id me) |} ;;
  decode is_notification resp.

(** The [params] of the [initialize] request. *)
Definition initialize_params (ent : string) : value :=
  VDict [("protocolVersion", VStr MCP_PROTOCOL_VERSION);
         ("capabilities", VDict []);
         ("clientInfo",
          VDict [("name", VStr ("memorable-" ++ ent));
                 ("version", VStr "1.0.0")])].

(** [connect]; the [print] of the handler writes to standard output, which
    the world does not record. *)
Definition connect : M bool :=
  try_except
    (me <- get_self ;;
     _ <- _mcp_request "initialize" (Some (initialize_params (entity me)))
            false ;;
     modify_self (set_initialized true) ;;;
     _ <- _mcp_request "notifications/initialized" None true ;;
     ret true)
    (fun _ => ret false).

(** The tail of [_call_tool]: unwrap the content-block convention. *)
Definition unwrap_content (result : value) : res value :=
  match result with
  | VDict (f :: fs) =>
      match dict_get (f :: fs) "content" (VList []) with
      | VList (first :: _) =>
          res_bind (py_get first "text" (VStr EmptyString)) (fun text =>
          match text with
          | VStr s =>
              match json_loads s with
              | Some v => Return v
              | None => Return text
              end
          | _ => Return text
          end)
      | _ => Return result
      end
  | _ => Return result
  end.

Definition tool_params (tool_name : string) (arguments : value) : value :=
  VDict [("name", VStr tool_name); ("arguments", arguments)].

Definition _call_tool (tool_name : string) (arguments : value) : M value :=
  me <- get_self ;;
  (if negb (_initialized me) then (_ <- connect ;; ret tt) else ret tt) ;;;
  result <- _mcp_request "tools/call"
              (Some (tool_params tool_name arguments)) false ;;
  lift (unwrap_content result).

Definition close : M unit :=
  me <- get_self ;;
  (match _session me with
   | Some s =>
       if negb (closed s)
       then modify_self (set_session (Some {| closed := true |}))
       else ret tt
   | None => ret tt
   end) ;;;
  modify_self (set_initialized false) ;;;
  modify_self (set_mcp_session_id None).

End Client.

(** ** Record normalizers *)

(** A [datetime.datetime]; [utcoffset] is the offset east of UTC in
    seconds, [None] for a naive value. *)
Record datetime : Type := {
  year : Z; month : Z; day : Z;
  hour : Z; minute : Z; second : Z; microsecond : Z;
  utcoffset : option Z;
}.

(** [datetime.fromisoformat] ([None] is [ValueError]) and
    [datetime.isoformat]. *)
Class DatetimeLib : Type := {
  fromisoformat : string -> option datetime;
  isoformat : datetime -> string;
}.

Module Memory.

(** The [timestamp] attribute: parsed when the raw value was a string, the
    raw value itself otherwise. *)
Inductive stamp : Type :=
| Parsed (d : datetime)
| Unparsed (v : value).

Record t : Type := {
  id : value;
  content : value;
  salience : value;
  timestamp : stamp;
  entity : value;
  context : value;
}.

(** [Memory.from_dict(data)]; [now] is what [datetime.now()] reads. *)
Definition from_dict {dt : DatetimeLib} (now : datetime)
  (data : list (string * value)) : res t :=
  let ts := dict_get data "timestamp"
              (dict_get data "createdAt" (VStr (isoformat now))) in
  res_bind
    (match ts with
     | VStr s =>
         match fromisoformat (str_replace "Z" "+00:00" s) with
         | Some d => Return (Parsed d)
         | None => Raise ValueError
         end
     | _ => Return (Unparsed ts)
     end)
    (fun ts' =>
       Return
         {| id := dict_get data "_id"
                    (dict_get data "id"
                       (dict_get data "memoryId" (VStr EmptyString)));
            content := dict_get data "content"
                         (dict_get data "text" (VStr EmptyString));
            salience := dict_get data "salience"
                          (dict_get data "salience_score"
                             (dict_get data "salienceScore" (VInt 50)));
            timestamp := ts';
            entity := dict_get data "entity" VNone;
            context := dict_get data "context" (VDict []) |}).

End Memory.

(** ** The module-level singleton *)

Module Singleton.

(** The interpreter state the singleton lives in: the client objects
    allocated so far, addressed by position, and the module global
    [_client], a reference or [None]. *)
Record Process : Type := {
  heap : list MemoRableClient;
  _client : option nat;
}.

Definition start : Process := {| heap := []; _client := None |}.

(** [get_memorable_client(mcp_url, entity, device_id, device_type)]: the
    reference it returns and the process it leaves. *)
Definition get_memorable_client (url ent dev_id dev_type : string)
  (p : Process) : nat * Process :=
  match _client p with
  | None =>
      let a := length (heap p) in
      (a, {| heap := heap p ++ [__init__ url ent dev_id dev_type];
             _client := Some a |})
  | Some a => (a, p)
  end.

(** The object a reference designates. *)
Definition deref (p : Process) (a : nat) : option MemoRableClient :=
  nth_error (heap p) a.

End Singleton.

(** ** Executable instances of the interfaces

    Used to run the client on concrete inputs.  [Json.loads] decodes JSON
    texts without [\u] escapes and without the non-standard [NaN] and
    [Infinity] literals, as Python's [json.loads] does on them. *)

Module Json.

Definition is_ws (c : ascii) : bool :=
  let n := nat_of_ascii c in
  Nat.eqb n 32 || Nat.eqb n 9 || Nat.eqb n 10 || Nat.eqb n 13.

Definition is_digit (c : ascii) : bool :=
  let n := nat_of_ascii c in Nat.leb 48 n && Nat.leb n 57.

Definition digit_val (c : ascii) : Z := Z.of_nat (nat_of_ascii c) - 48.

Fixpoint skip_ws (s : string) : string :=
  match s with
  | String c s' => if is_ws c then skip_ws s' else s
  | EmptyString => s
  end.

(** The digits at the front of [s] and what follows them. *)
Fixpoint span_digits (s : string) : string * string :=
  match s with
  | String c s' =>
      if is_digit c
      then let (ds, r) := span_digits s' in (String c ds, r)
      else (EmptyString, s)
  | EmptyString => (EmptyString, s)
  end.

Fixpoint digits_val (acc : Z) (ds : string) : Z :=
  match ds with
  | String c ds' => digits_val (10 * acc + digit_val c) ds'
  | EmptyString => acc
  end.

(** The characters up to the closing quote, escapes resolved. *)
Fixpoint scan_string (s : string) : option (string * string) :=
  match s with
  | EmptyString => None
  | String c s' =>
      if Ascii.eqb c DQ then Some (EmptyString, s')
      else if Nat.ltb (nat_of_ascii c) 32 then None
      else if Ascii.eqb c (ascii_of_nat 92) then
        match s' with
        | String e s'' =>
            let n := nat_of_ascii e in
            let out :=
              if Nat.eqb n 34 then Some DQ
              else if Nat.eqb n 92 then Some (ascii_of_nat 92)
              else if Nat.eqb n 47 then Some (ascii_of_nat 47)
              else if Nat.eqb n 110 then Some LF
              else if Nat.eqb n 116 then Some (ascii_of_nat 9)
              else if Nat.eqb n 114 then Some (ascii_of_nat 13)
              else if Nat.eqb n 98 then Some (ascii_of_nat 8)
              else if Nat.eqb n 102 then Some (ascii_of_nat 12)
              else None in
            match out, scan_string s'' with
            | Some a, Some (body, r) => Some (String a body, r)
            | _, _ => None
            end
        | EmptyString => None
        end
      else
        match scan_string s' with
        | Some (body, r) => Some (String c body, r)
        | None => None
        end
  end.

(** The fraction [.ddd] at the front of [s], if any: its text and the rest.
    [None] when a dot is not followed by a digit. *)
Definition scan_fraction (s : string) : option (string * string) :=
  match s with
  | String c s' =>
      if Ascii.eqb c "." then
        match span_digits s' with
        | (EmptyString, _) => None
        | (fd, r) => Some (String c fd, r)
        end
      else Some (EmptyString, s)
  | EmptyString => Some (EmptyString, s)
  end.

(** The exponent [e+dd] at the front of [s], if any; an [e] that no digit
    follows is left in place, as [json] does. *)
Definition scan_exponent (s : string) : string * string :=
  match s with
  | String c s' =>
      if Ascii.eqb c "e" || Ascii.eqb c "E" then
        let (sign, s1) :=
          match s' with
          | String g s'' =>
              if Ascii.eqb g "+" || Ascii.eqb g "-"
              then (String g EmptyString, s'')
              else (EmptyString, s')
          | EmptyString => (EmptyString, s')
          end in
        match span_digits s1 with
        | (EmptyString, _) => (EmptyString, s)
        | (ed, r) => (String c (sign ++ ed), r)
        end
      else (EmptyString, s)
  | EmptyString => (EmptyString, s)
  end.

(** A number: an [int] unless a fraction or an exponent follows, then a
    [float], kept by its literal. *)
Definition scan_number (s : string) : option (value * string) :=
  let (neg, s1) :=
    match s with
    | String c s' => if Ascii.eqb c "-" then (true, s') else (false, s)
    | EmptyString => (false, s)
    end in
  let (ds, r) := span_digits s1 in
  match ds with
  | EmptyString => None
  | String d ds' =>
      if Ascii.eqb d "0" && negb (String.eqb ds' EmptyString) then None
      else
        match scan_fraction r with
        | None => None
        | Some (frac, r1) =>
            let (ex, r2) := scan_exponent r1 in
            if String.eqb frac EmptyString && String.eqb ex EmptyString
            then Some (VInt (if neg then - digits_val 0 ds
                             else digits_val 0 ds), r2)
            else Some (VFloat ((if neg then "-" else EmptyString)
                               ++ ds ++ frac ++ ex), r2)
        end
  end.

(** [d[k] = v] on a dict under construction. *)
Fixpoint dict_set (k : string) (v : value) (d : list (string * value))
  : list (string * value) :=
  match d with
  | [] => [(k, v)]
  | (k', v') :: d' =>
      if String.eqb k k' then (k', v) :: d' else (k', v') :: dict_set k v d'
  end.

Fixpoint parse_value (fuel : nat) (s : string) {struct fuel}
  : option (value * string) :=
  match fuel with
  | O => None
  | S f =>
      match skip_ws s with
      | EmptyString => None
      | String c s' =>
          if String.prefix "null" (String c s')
          then Some (VNone, str_drop 4 (String c s'))
          else if String.prefix "true" (String c s')
          then Some (VBool true, str_drop 4 (String c s'))
          else if String.prefix "false" (String c s')
          then Some (VBool false, str_drop 5 (String c s'))
          else if Ascii.eqb c DQ then
            match scan_string s' with
            | Some (body, r) => Some (VStr body, r)
            | None => None
            end
          else if Ascii.eqb c "[" then
            match skip_ws s' with
            | String c1 r1 =>
                if Ascii.eqb c1 "]" then Some (VList [], r1)
                else parse_items f [] (String c1 r1)
            | EmptyString => None
            end
          else if Ascii.eqb c "{" then
            match skip_ws s' with
            | String c1 r1 =>
                if Ascii.eqb c1 "}" then Some (VDict [], r1)
                else parse_members f [] (String c1 r1)
            | EmptyString => None
            end
          else scan_number (String c s')
      end
  end
with parse_items (fuel : nat) (acc : list value) (s : string) {struct fuel}
  : option (value * string) :=
  match fuel with
  | O => None
  | S f =>
      match parse_value f s with
      | None => None
      | Some (v, r) =>
          match skip_ws r with
          | String c r' =>
              if Ascii.eqb c "," then parse_items f (acc ++ [v]) r'
              else if Ascii.eqb c "]" then Some (VList (acc ++ [v]), r')
              else None
          | EmptyString => None
          end
      end
  end
with parse_members (fuel : nat) (acc : list (string * value)) (s : string)
  {struct fuel} : option (value * string) :=
  match fuel with
  | O => None
  | S f =>
      match skip_ws s with
      | String c s' =>
          if Ascii.eqb c DQ then
            match scan_string s' with
            | None => None
            | Some (k, r) =>
                match skip_ws r with
                | String c1 r1 =>
                    if Ascii.eqb c1 ":" then
                      match parse_value f r1 with
                      | None => None
                      | Some (v, r2) =>
                          match skip_ws r2 with
                          | String c2 r3 =>
                              if Ascii.eqb c2 ","
                              then parse_members f (dict_set k v acc) r3
                              else if Ascii.eqb c2 "}"
                              then Some (VDict (dict_set k v acc), r3)
                              else None
                          | EmptyString => None
                          end
                      end
                    else None
                | EmptyString => None
                end
            end
          else None
      | EmptyString => None
      end
  end.

Definition loads (s : string) : option value :=
  match parse_value (2 * String.length s + 2) s with
  | Some (v, r) =>
      match skip_ws r with
      | EmptyString => Some v
      | String _ _ => None
      end
  | None => None
  end.

End Json.

Definition json_lite : JsonLib := Json.loads.

(** [Iso.fromisoformat] reads [YYYY-MM-DDTHH:MM:SS], an optional
    six-digit fraction and an optional [+HH:MM] or [-HH:MM] offset;
    [Iso.isoformat] writes the same. *)
Module Iso.

Definition digit (n : Z) : ascii := ascii_of_nat (48 + Z.to_nat n).

Definition pad2 (n : Z) : string :=
  String (digit (n / 10 mod 10)) (String (digit (n mod 10)) EmptyString).

Definition pad4 (n : Z) : string := pad2 (n / 100) ++ pad2 (n mod 100).

Definition pad6 (n : Z) : string := pad2 (n / 10000) ++ pad4 (n mod 10000).

Definition read2 (s : string) : option (Z * string) :=
  match s with
  | String a (String b r) =>
      if Json.is_digit a && Json.is_digit b
      then Some (10 * Json.digit_val a + Json.digit_val b, r)
      else None
  | _ => None
  end.

Definition read4 (s : string) : option (Z * string) :=
  match read2 s with
  | Some (hi, r) =>
      match read2 r with
      | Some (lo, r') => Some (100 * hi + lo, r')
      | None => None
      end
  | None => None
  end.

Definition expect (c : ascii) (s : string) : option string :=
  match s with
  | String a r => if Ascii.eqb a c then Some r else None
  | EmptyString => None
  end.

Definition is_leap (y : Z) : bool :=
  ((y mod 4 =? 0) && negb (y mod 100 =? 0)) || (y mod 400 =? 0).

Definition days_in_month (y m : Z) : Z :=
  if m =? 2 then (if is_leap y then 29 else 28)
  else if (m =? 4) || (m =? 6) || (m =? 9) || (m =? 11) then 30
  else 31.

Definition obind {A B : Type} (o : option A) (k : A -> option B) : option B :=
  match o with
  | Some a => k a
  | None => None
  end.

(** The optional fraction and offset that may follow the seconds. *)
Definition read_tail (s : string) : option (Z * option Z) :=
  let frac :=
    match s with
    | String c r =>
        if Ascii.eqb c "." then
          obind (read2 r) (fun '(a, r1) =>
          obind (read4 r1) (fun '(b, r2) => Some (10000 * a + b, r2)))
        else Some (0, s)
    | EmptyString => Some (0, s)
    end in
  obind frac (fun '(us, r) =>
  match r with
  | EmptyString => Some (us, None)
  | String c r1 =>
      if Ascii.eqb c "+" || Ascii.eqb c "-" then
        obind (read2 r1) (fun '(oh, r2) =>
        obind (expect ":" r2) (fun r3 =>
        obind (read2 r3) (fun '(om, r4) =>
        match r4 with
        | EmptyString =>
            if (oh <? 24) && (om <? 60)
            then Some (us, Some ((if Ascii.eqb c "-" then -1 else 1)
                                 * (3600 * oh + 60 * om)))
            else None
        | String _ _ => None
        end)))
      else None
  end).

Definition fromisoformat (s : string) : option datetime :=
  obind (read4 s) (fun '(y, r) =>
  obind (expect "-" r) (fun r =>
  obind (read2 r) (fun '(mo, r) =>
  obind (expect "-" r) (fun r =>
  obind (read2 r) (fun '(d, r) =>
  obind (expect "T" r) (fun r =>
  obind (read2 r) (fun '(h, r) =>
  obind (expect ":" r) (fun r =>
  obind (read2 r) (fun '(mi, r) =>
  obind (expect ":" r) (fun r =>
  obind (read2 r) (fun '(sec, r) =>
  obind (read_tail r) (fun '(us, off) =>
  if (1 <=? y) && (1 <=? mo) && (mo <=? 12) && (1 <=? d)
     && (d <=? days_in_month y mo) && (h <? 24) && (mi <? 60) && (sec <? 60)
  then Some {| year := y; month := mo; day := d; hour := h; minute := mi;
               second := sec; microsecond := us; utcoffset := off |}
  else None)))))))))))).

Definition isoformat (d : datetime) : string :=
  pad4 (year d) ++ "-" ++ pad2 (month d) ++ "-" ++ pad2 (day d) ++ "T"
  ++ pad2 (hour d) ++ ":" ++ pad2 (minute d) ++ ":" ++ pad2 (second d)
  ++ (if microsecond d =? 0 then EmptyString
      else "." ++ pad6 (microsecond d))
  ++ match utcoffset d with
     | None => EmptyString
     | Some o =>
         (if o <? 0 then "-" else "+")
         ++ pad2 (Z.abs o / 3600) ++ ":" ++ pad2 (Z.abs o / 60 mod 60)
     end.

End Iso.

Definition iso_lite : DatetimeLib :=
  {| fromisoformat := Iso.fromisoformat; isoformat := Iso.isoformat |}.

(** A remote end that plays a script: the [n]-th POST gets the [n]-th
    scripted outcome, and the connection is refused once the script ends. *)
Definition scripted_post (script : list (res Response)) (rq : Request)
  : res Response * list (res Response) :=
  match script with
  | r :: rest => (r, rest)
  | [] => (Raise (TransportError "connection refused"), [])
  end.

Definition scripted : Remote :=
  {| Net := list (res Response); session_post := scripted_post |}.

(** A plain-JSON response carrying the decoded document [doc]. *)
Definition json_response (sid : option string) (doc : value) : Response :=
  {| resp_session_id := sid; resp_status := 200;
     resp_content_type := Some "application/json";
     resp_text := Raise ValueError; resp_json := Return doc |}.

(** An SSE response with the given body. *)
Definition sse_response (sid : option string) (body : string) : Response :=
  {| resp_session_id := sid; resp_status := 200;
     resp_content_type := Some "text/event-stream";
     resp_text := Return body; resp_json := Raise ValueError |}.

(** A fresh client in front of a scripted remote end. *)
Definition fresh (script : list (res Response)) : @World scripted :=
  @Build_World scripted
    (__init__ "http://memorable.example/mcp" "chloe" "johnny5-main" "robot")
    script [].

(** Scripted answers: a successful [initialize] that assigns session
    [s1], the 202 that acknowledges a notification, a dropped connection,
    and a tool result wrapping [text] in one content block. *)
Definition init_ok : res Response :=
  Return (json_response (Some "s1")
            (VDict [("result",
                     VDict [("protocolVersion", VStr "2025-03-26")])])).

Definition accepted : res Response :=
  Return {| resp_session_id := None; resp_status := 202;
            resp_content_type := None;
            resp_text := Return EmptyString;
            resp_json := Raise JSONDecodeError |}.

(** An error response, HTTP 400, that rotates the session to [s2]. *)
Definition rejection : Response :=
  {| resp_session_id := Some "s2"; resp_status := 400;
     resp_content_type := Some "application/json";
     resp_text := Raise ValueError;
     resp_json := Return (VDict [("error",
                                  VDict [("code", VInt (-32600))])]) |}.

Definition dropped : res Response :=
  Raise (TransportError "connection reset").

Definition text_block (text : string) : value :=
  VDict [("content",
          VList [VDict [("type", VStr "text"); ("text", VStr text)]])].

Definition image_block : value :=
  VDict [("content", VList [VDict [("type", VStr "image")]])].

Definition tool_answer (result : value) : res Response :=
  Return (json_response None (VDict [("result", result)])).

(** A document with both keys, as an object and as text. *)
Definition both_keys : list (string * value) :=
  [("result", VInt 1); ("error", VInt 7)].

Definition both_keys_text : string :=
  "{" ++ dq ++ "result" ++ dq ++ ": 1, " ++ dq ++ "error" ++ dq ++ ": 7}".

(** A client that has connected, in front of the rest of a script. *)
Definition ready (script : list (res Response)) : @World scripted :=
  snd (@connect scripted json_lite
         (fresh ([init_ok; accepted] ++ script)%list)).

Definition a_clock : datetime :=
  {| year := 2025; month := 3; day := 4; hour := 5; minute := 6;
     second := 7; microsecond := 0; utcoffset := None |}.

(** ** Vocabulary for the statements

    Closed forms of what a call leaves behind, and the predicates the
    properties are stated with. *)

Section Forms.
Context {remote : Remote} {jsonlib : JsonLib}.

(** The client once [_get_session] has run. *)
Definition with_session (c : MemoRableClient) : MemoRableClient :=
  match _session c with
  | Some s =>
      if closed s then set_session (Some {| closed := false |}) c else c
  | None => set_session (Some {| closed := false |}) c
  end.

(** The client at the moment [_mcp_request] posts. *)
Definition prepared (is_notification : bool) (c : MemoRableClient)
  : MemoRableClient :=
  if is_notification then with_session c
  else set_request_id (_request_id c + 1) (with_session c).

(** The request [_mcp_request] posts from world [w]. *)
Definition next_request (method : string) (params : option value)
  (is_notification : bool) (w : World) : Request :=
  {| req_url := mcp_url (self w);
     req_json := envelope method
                   (if is_notification then None
                    else Some (_request_id (self w) + 1))
                   params;
     req_headers := request_headers (_mcp_session_id (self w)) |}.

(** The client once the session-id header of [resp] has been looked at. *)
Definition store_session_id (resp : Response) (c : MemoRableClient)
  : MemoRableClient :=
  if truthy_str (resp_session_id resp)
  then set_mcp_session_id (resp_session_id resp) c
  else c.

(** What decoding [resp] returns or raises. *)
Definition decode_result (is_notification : bool) (resp : Response)
  : res value :=
  if is_notification || (resp_status resp =? 202) || (resp_status resp =? 204)
  then Return VNone
  else if str_in "text/event-stream" (or_empty (resp_content_type resp))
  then res_bind (resp_text resp) (fun body => sse_scan (str_split LF body))
  else res_bind (resp_json resp) extract_result.

(** The world once [connect] has set [self._initialized = True]. *)
Definition marked_ready (w : World) : World :=
  {| self := set_initialized true (self w); net := net w; sent := sent w |}.

(** The world in which [_call_tool] posts: after the lazy [connect]. *)
Definition after_guard (w : World) : World :=
  if _initialized (self w) then w else snd (connect w).

(** The request ids carried by a log of requests, oldest first. *)
Definition id_of (rq : Request) : list Z :=
  match req_json rq with
  | VDict d =>
      match lookup "id" d with
      | Some (VInt i) => [i]
      | _ => []
      end
  | _ => []
  end.

Definition ids_sent (log : list Request) : list Z := flat_map id_of log.

(** The JSON-RPC method a request names. *)
Definition method_of (rq : Request) : option string :=
  match req_json rq with
  | VDict d =>
      match lookup "method" d with
      | Some (VStr m) => Some m
      | _ => None
      end
  | _ => None
  end.

(** The uses a caller can make of a client object. *)
Inductive call : Type :=
| DoRequest (method : string) (params : option value)
| DoNotification (method : string) (params : option value)
| DoConnect
| DoCallTool (tool_name : string) (arguments : value)
| DoClose.

(** The world after one use, whether it returned or raised. *)
Definition perform (c : call) (w : World) : World :=
  match c with
  | DoRequest m p => snd (_mcp_request m p false w)
  | DoNotification m p => snd (_mcp_request m p true w)
  | DoConnect => snd (connect w)
  | DoCallTool name args => snd (_call_tool name args w)
  | DoClose => snd (close w)
  end.

Definition run (calls : list call) (w : World) : World :=
  fold_left (fun w' c => perform c w') calls w.

(** The client once [close] has run. *)
Definition closed_client (c : MemoRableClient) : MemoRableClient :=
  set_mcp_session_id None
    (set_initialized false
       (match _session c with
        | Some s =>
            if negb (closed s)
            then set_session (Some {| closed := true |}) c
            else c
        | None => c
        end)).

(** The ids sent so far are 1, 2, ..., up to the counter. *)
Definition counted (w : World) : Prop :=
  exists k : nat,
    _request_id (self w) = Z.of_nat k
    /\ ids_sent (sent w) = map Z.of_nat (seq 1 k).

(** A decoded frame or document carries a [result] or an [error] key. *)
Definition bearing (d : list (string * value)) : bool :=
  has_key "result" d || has_key "error" d.

(** A line the SSE scan passes over: not a [data: ] line, or a frame
    holding a JSON object with neither key. *)
Definition passed_over (line : string) : Prop :=
  startswith "data: " line = false \/
  exists d, json_loads (str_drop 6 line) = Some (VDict d)
            /\ bearing d = false.

(** A [data: ] line holds the JSON object [d]. *)
Definition frame (line : string) (d : list (string * value)) : Prop :=
  startswith "data: " line = true
  /\ json_loads (str_drop 6 line) = Some (VDict d).



(** What the codec makes of a decoded object [d]: its [result] if it has
    one, else a failure with its [error] if it has one, else [d] itself. *)
Definition document_outcome (d : list (string * value)) : res value :=
  match lookup "result" d with
  | Some r => Return r
  | None =>
      match lookup "error" d with
      | Some p => Raise (MCP_error p)
      | None => Return (VDict d)
      end
  end.

(** [d] is the first frame of [lines] that carries a [result] or an [error]
    key, every earlier line being passed over. *)
Definition first_frame (lines : list string) (d : list (string * value))
  : Prop :=
  exists pre line post,
    lines = (pre ++ line :: post)%list
    /\ Forall passed_over pre
    /\ frame line d
    /\ bearing d = true.

(** [d] is the response document of [resp]: the object [resp.json()] gives,
    or the first bearing frame of the event stream. *)
Definition answers_with (resp : Response) (d : list (string * value))
  : Prop :=
  if str_in "text/event-stream" (or_empty (resp_content_type resp))
  then exists body, resp_text resp = Return body
                    /\ first_frame (str_split LF body) d
  else resp_json resp = Return (VDict d).



(** The text [{"result": 42}] and the SSE body made of that one frame and
    an empty line. *)
Definition result_42 : string := "{" ++ dq ++ "result" ++ dq ++ ": 42}".


End Forms.

(** ** The facade: tool-backed operations

    Python's truth test needs to know when a float is zero, and [recall]
    compares a float with 0; both are left to an interface. *)

Class FloatLib : Type := {
  float_is_zero : string -> bool;
  float_is_positive : string -> bool;
}.

(** [bool(v)] *)
Definition truthy {fl : FloatLib} (v : value) : bool :=
  match v with
  | VNone => false
  | VBool b => b
  | VInt n => negb (n =? 0)
  | VFloat lit => negb (float_is_zero lit)
  | VStr s => negb (String.eqb s EmptyString)
  | VList l => match l with [] => false | _ :: _ => true end
  | VDict d => match d with [] => false | _ :: _ => true end
  end.

(** A number handed in by the caller: an [int] or a [float]. *)
Inductive number : Type :=
| NInt (n : Z)
| NFloat (lit : string).

Definition number_value (x : number) : value :=
  match x with
  | NInt n => VInt n
  | NFloat lit => VFloat lit
  end.

(** [x > 0] *)
Definition gt_zero {fl : FloatLib} (x : number) : bool :=
  match x with
  | NInt n => 0 <? n
  | NFloat lit => float_is_positive lit
  end.

(** [for m in v]: the items a [for] loop visits, [TypeError] when [v] is not
    iterable. *)
Definition py_iter (v : value) : res (list value) :=
  match v with
  | VList l => Return l
  | VStr s =>
      Return (map (fun c => VStr (String c EmptyString))
                (list_ascii_of_string s))
  | VDict d => Return (map (fun kv => VStr (fst kv)) d)
  | VNone | VBool _ | VInt _ | VFloat _ => Raise TypeError
  end.

(** [result if isinstance(result, dict) else {}] *)
Definition dict_or_empty (result : value) : value :=
  match result with
  | VDict d => VDict d
  | _ => VDict []
  end.

(** An optional string argument added to [args] under [k] when truthy. *)
Definition opt_str_arg (k : string) (x : option string)
  : list (string * value) :=
  if truthy_str x then [(k, VStr (or_empty x))] else [].

(** An optional list of strings added under [k] when non-empty. *)
Definition opt_list_arg (k : string) (x : option (list string))
  : list (string * value) :=
  match x with
  | Some (a :: l) => [(k, VList (map VStr (a :: l)))]
  | _ => []
  end.

Module Briefing.

Record t : Type := {
  person : value;
  last_interaction : option datetime;
  you_owe_them : value;
  they_owe_you : value;
  recent_topics : value;
  sensitivities : value;
  upcoming_events : value;
}.

(** [Briefing.from_dict(data)] *)
Definition from_dict {dt : DatetimeLib} {fl : FloatLib}
  (data : list (string * value)) : res t :=
  let first := dict_get data "last_interaction" VNone in
  let li := if truthy first then first
            else dict_get data "lastInteraction" VNone in
  res_bind
    (if truthy li then
       match li with
       | VStr s =>
           match fromisoformat (str_replace "Z" "+00:00" s) with
           | Some d => Return (Some d)
           | None => Raise ValueError
           end
       | _ => Raise AttributeError
       end
     else Return None)
    (fun last =>
       Return
         {| person := dict_get data "person" (VStr EmptyString);
            last_interaction := last;
            you_owe_them := dict_get data "you_owe_them"
                              (dict_get data "youOweThem" (VList []));
            they_owe_you := dict_get data "they_owe_you"
                              (dict_get data "theyOweYou" (VList []));
            recent_topics := dict_get data "recent_topics"
                               (dict_get data "recentTopics" (VList []));
            sensitivities := dict_get data "sensitivities" (VList []);
            upcoming_events := dict_get data "upcoming_events"
                                 (dict_get data "upcomingEvents"
                                    (VList [])) |}).

End Briefing.

(** The liveness probe: [session.get(url, timeout=...)] gives the status of
    the response or raises (refused, timed out). *)
Class Prober {remote : Remote} : Type :=
  session_get : Net -> string -> res Z * Net.

Section Facade.
Context {remote : Remote} {jsonlib : JsonLib} {dt : DatetimeLib}
  {fl : FloatLib} {prober : Prober}.

Notation "x <- m ;; k" := (bind m (fun x => k))
  (at level 61, m at next level, right associativity).
Notation "m ;;; k" := (bind m (fun _ => k))
  (at level 61, right associativity).

(** The GET of the probe; it does not go into the log of POSTed requests. *)
Definition get (url : string) : M Z :=
  fun w =>
    let (r, n') := session_get (net w) url in
    (r, {| self := self w; net := n'; sent := sent w |}).

Definition health_check : M bool :=
  try_except
    (_ <- _get_session ;;
     me <- get_self ;;
     status <- get (str_replace "/mcp" "/health" (mcp_url me)) ;;
     ret (status =? 200))
    (fun _ => ret false).

(** The [args] that [store] builds. *)
Definition store_args (content : string)
  (context : option (list (string * value))) (security_tier : string)
  : value :=
  VDict ([("text", VStr content); ("securityTier", VStr security_tier)]
         ++ match context with
            | Some (f :: fs) => [("context", VDict (f :: fs))]
            | _ => []
            end).

Definition store (content : string)
  (context : option (list (string * value))) (security_tier : string)
  : M value :=
  result <- _call_tool "store_memory"
              (store_args content context security_tier) ;;
  match result with
  | VDict d => ret (dict_get d "memoryId" VNone)
  | _ => ret VNone
  end.

(** [Memory.from_dict(m)] on an item of a result: [m.get] needs a dict. *)
Definition memory_of (now : datetime) (m : value) : res Memory.t :=
  match m with
  | VDict d => Memory.from_dict now d
  | _ => Raise AttributeError
  end.

(** [[Memory.from_dict(m) for m in items]]; [clock i] is what
    [datetime.now()] reads while item [i] is normalized. *)
Fixpoint memories_from (clock : nat -> datetime) (i : nat)
  (items : list value) : res (list Memory.t) :=
  match items with
  | [] => Return []
  | m :: rest =>
      res_bind (memory_of (clock i) m) (fun x =>
      res_bind (memories_from clock (S i) rest) (fun xs =>
      Return (x :: xs)))
  end.

(** The [args] that [recall] builds. *)
Definition recall_args (query : string) (limit : Z) (min_salience : number)
  : value :=
  VDict ([("query", VStr query); ("limit", VInt limit)]
         ++ (if gt_zero min_salience
             then [("minSalience", number_value min_salience)]
             else [])).

Definition recall (clock : nat -> datetime) (query : string) (limit : Z)
  (min_salience : number) : M (list Memory.t) :=
  result <- _call_tool "recall" (recall_args query limit min_salience) ;;
  match result with
  | VList items => lift (memories_from clock O items)
  | VDict d =>
      if has_key "memories" d
      then lift (res_bind (res_bind (py_getitem (VDict d) "memories") py_iter)
                   (memories_from clock O))
      else ret []
  | _ => ret []
  end.

Definition forget (memory_id : string) (mode : string) : M bool :=
  result <- _call_tool "forget"
              (VDict [("memoryId", VStr memory_id); ("mode", VStr mode)]) ;;
  ret (truthy result).

Definition set_context (location : option string)
  (people : option (list string)) (activity : option string) : M value :=
  me <- get_self ;;
  let args := ([("deviceId", VStr (device_id me));
               ("deviceType", VStr (device_type me))]
              ++ opt_str_arg "location" location
              ++ opt_list_arg "people" people
              ++ opt_str_arg "activity" activity)%list in
  result <- _call_tool "set_context" (VDict args) ;;
  ret (dict_or_empty result).

Definition whats_relevant : M value :=
  result <- _call_tool "whats_relevant" (VDict [("unified", VBool true)]) ;;
  ret (dict_or_empty result).

Definition clear_context : M bool :=
  me <- get_self ;;
  result <- _call_tool "clear_context"
              (VDict [("deviceId", VStr (device_id me))]) ;;
  ret (truthy result).

(** The [args] that [get_briefing] builds. *)
Definition get_briefing_args (person : string) (quick : bool) : value :=
  VDict [("person", VStr person); ("quick", VBool quick)].

Definition get_briefing (person : string) (quick : bool)
  : M (option Briefing.t) :=
  result <- _call_tool "get_briefing" (get_briefing_args person quick) ;;
  match result with
  | VDict d =>
      if truthy (dict_get d "person" VNone)
      then (b <- lift (Briefing.from_dict d) ;; ret (Some b))
      else ret None
  | _ => ret None
  end.


Definition remember_person (name : string) (notes : option string)
  : M value :=
  let content := ("Met " ++ name)
                 ++ (if truthy_str notes then ". " ++ or_empty notes
                     else EmptyString) in
  store content (Some [("person", VStr name)]) "Tier2_Personal".

(** The [args] that [list_loops] builds. *)
Definition list_loops_args (person : option string) : value :=
  VDict (opt_str_arg "person" person).

Definition list_loops (person : option string) : M value :=
  result <- _call_tool "list_loops" (list_loops_args person) ;;
  match result with
  | VList l => ret (VList l)
  | VDict d =>
      if has_key "loops" d then lift (py_getitem (VDict d) "loops")
      else ret (VList [])
  | _ => ret (VList [])
  end.

Definition close_loop (loop_id : string) (note : option string) : M bool :=
  result <- _call_tool "close_loop"
              (VDict ([("loopId", VStr loop_id)] ++ opt_str_arg "note" note)) ;;
  ret (truthy result).


(** The [args] that [get_predictions] builds for a client of the given
    device type. *)
Definition get_predictions_args (dev_type : string)
  (topics : option (list string)) : value :=
  VDict [("context",
          VDict ([("device_type", VStr dev_type);
                  ("activity_type", VStr "social_interaction")]
                 ++ opt_list_arg "topics" topics))].

Definition get_predictions (topics : option (list string)) : M value :=
  me <- get_self ;;
  result <- _call_tool "get_predictions"
              (get_predictions_args (device_type me) topics) ;;
  match result with
  | VDict d =>
      if has_key "predictions" d
      then lift (py_getitem (VDict d) "predictions")
      else ret (VList [])
  | _ => ret (VList [])
  end.




Definition get_status : M value :=
  result <- _call_tool "get_status" (VDict []) ;;
  ret (dict_or_empty result).

(** *** Convenience functions

    Each starts with [client = get_memorable_client()], called without
    arguments: the module global holds the one client object, or nothing
    yet.  [MCP_URL] is read from the environment when the module loads.
    The [print]s write to standard output, which is not recorded. *)

Variable MCP_URL : string.

Record Program : Type := {
  the_client : option MemoRableClient;
  program_net : Net;
  program_sent : list Request;
}.

(** What [get_memorable_client()] returns: the client the global holds,
    or the one it constructs from the defaults. *)
Definition the_singleton (p : Program) : MemoRableClient :=
  match the_client p with
  | Some c => c
  | None => __init__ MCP_URL "chloe" "johnny5-main" "robot"
  end.

(** The world a method of the singleton runs in. *)
Definition singleton_world (p : Program) : World :=
  {| self := the_singleton p; net := program_net p;
     sent := program_sent p |}.

(** Run a method on the singleton, constructing it first if need be. *)
Definition on_singleton {A : Type} (m : M A) : Program -> res A * Program :=
  fun p =>
    let (r, w') := m (singleton_world p) in
    (r, {| the_client := Some (self w'); program_net := net w';
           program_sent := sent w' |}).

Definition on_startup (location : option string)
  : Program -> res value * Program :=
  on_singleton
    (healthy <- health_check ;;
     if negb healthy then ret (VDict [])
     else
       _ <- connect ;;
       _ <- set_context location None (Some "social_interaction") ;;
       relevant <- whats_relevant ;;
       ret relevant).

Definition on_person_recognized (name : string)
  : Program -> res (option Briefing.t) * Program :=
  on_singleton (get_briefing name false).

Definition on_conversation_end (person : option string) (summary : string)
  : Program -> res value * Program :=
  on_singleton
    (let context := if truthy_str person
                    then [("person", VStr (or_empty person))]
                    else [] in
     store summary (Some context) "Tier2_Personal").

End Facade.

(** Executable instances for the facade: a float literal is zero when its
    mantissa has no other digit than 0 (exact unless the literal
    underflows), and a probe that plays a script of its own. *)
Fixpoint mantissa_is_zero (lit : string) : bool :=
  match lit with
  | EmptyString => true
  | String c rest =>
      if Ascii.eqb c "e" || Ascii.eqb c "E" then true
      else if Json.is_digit c && negb (Ascii.eqb c "0") then false
      else mantissa_is_zero rest
  end.

Definition float_lite : FloatLib :=
  {| float_is_zero := mantissa_is_zero;
     float_is_positive := fun lit =>
       negb (mantissa_is_zero lit) && negb (String.prefix "-" lit) |}.

(** A probe that always gets the same answer. *)
Definition probe_answer (r : res Z) : @Prober scripted :=
  fun n _ => (r, n).

(** More scripted answers: a 204 without content, a plain document,
    and an event stream whose first frame is not JSON. *)
Definition no_content : res Response :=
  Return {| resp_session_id := None; resp_status := 204;
            resp_content_type := None;
            resp_text := Return EmptyString;
            resp_json := Raise JSONDecodeError |}.

Definition status_document : list (string * value) :=
  [("status", VStr "ok")].

Definition broken_stream : string :=
  "data: oops" ++ lf ++ "data: " ++ result_42.

Definition two_memories : value :=
  VList [VDict [("_id", VStr "m1"); ("content", VStr "hiking");
                ("timestamp", VInt 1700000000)];
         VDict [("id", VStr "m2"); ("text", VStr "robots");
                ("createdAt", VStr "2024-01-01T00:00:00Z")]].

Definition alan_briefing : list (string * value) :=
  [("person", VStr "Alan"); ("last_interaction", VStr EmptyString);
   ("lastInteraction", VStr "2024-01-01T00:00:00Z");
   ("youOweThem", VList [VStr "a call"])].

(** A process in which no client exists yet. *)
Definition new_program (script : list (res Response)) : @Program scripted :=
  @Build_Program scripted None script [].

(** A process whose singleton is connected. *)
Definition ready_program (script : list (res Response))
  : @Program scripted :=
  @Build_Program scripted (Some (self (ready script))) (net (ready script))
    (sent (ready script)).

(** ** Vocabulary for the properties of the whole client *)

Section MoreForms.
Context {remote : Remote}.

(** From [w] to [w'] the client still satisfies [keeps] and every request
    added to the log satisfies [good]. *)
Definition grows (keeps : MemoRableClient -> Prop) (good : Request -> Prop)
  (w w' : World) : Prop :=
  keeps (self w')
  /\ exists new, sent w' = (sent w ++ new)%list /\ Forall good new.

End MoreForms.

(** The request carries a non-empty [Mcp-Session-Id] header. *)
Definition carries_session (rq : Request) : Prop :=
  exists sid, sid <> EmptyString
              /\ In ("Mcp-Session-Id", sid) (req_headers rq).

(** The request is a JSON-RPC 2.0 envelope posted to [url] with the two
    content headers. *)
Definition well_addressed (url : string) (rq : Request) : Prop :=
  req_url rq = url
  /\ (exists d, req_json rq = VDict d
                /\ lookup "jsonrpc" d = Some (VStr "2.0"))
  /\ In ("Content-Type", "application/json") (req_headers rq)
  /\ In ("Accept", "application/json, text/event-stream") (req_headers rq).

(** The headers of a request posted without a session id. *)
Definition plain_headers : list (string * string) :=
  [("Content-Type", "application/json");
   ("Accept", "application/json, text/event-stream")].

(** [None], a boolean or a number. *)
Definition is_scalar (v : value) : bool :=
  match v with
  | VNone | VBool _ | VInt _ | VFloat _ => true
  | VStr _ | VList _ | VDict _ => false
  end.

Definition is_dict (v : value) : bool :=
  match v with
  | VDict _ => true
  | _ => false
  end.


Definition is_close (c : call) : bool :=
  match c with
  | DoClose => true
  | _ => false
  end.

(** ** Properties *)

Section Properties.
Context {remote : Remote} {jsonlib : JsonLib}.

(** *** Symbolic execution of one request *)

(** [_mcp_request] in closed form: the request posted, the client it
    leaves, and the outcome, by the answer of the remote end. *)
Lemma mcp_request_unfold (method : string) (params : option value)
  (is_notification : bool) (w : World) :
  _mcp_request method params is_notification w =
  let rq := next_request method params is_notification w in
  match session_post (net w) rq with
  | (Raise e, n') =>
      (Raise e,
       {| self := prepared is_notification (self w); net := n';
          sent := sent w ++ [rq] |})
  | (Return resp, n') =>
      (decode_result is_notification resp,
       {| self := store_session_id resp (prepared is_notification (self w));
          net := n'; sent := sent w ++ [rq] |})
  end.
Proof.
  destruct w as [c n log].
  unfold _mcp_request, next_request, prepared, with_session, _get_session,
    _next_id, post, decode, bind, get_self, modify_self, ret, lift,
    store_session_id, decode_result.
  cbn.
  destruct c as [u e d t s sid rid ini]; cbn.
  destruct s as [[[|]]|]; destruct is_notification; cbn;
    match goal with
    | |- context [session_post ?n ?r] => destruct (session_post n r) as [[resp|ex] n']
    end; cbn; try reflexivity.
  all: destruct (truthy_str (resp_session_id resp)); cbn; try reflexivity.
  all: destruct (resp_status resp =? 202); cbn; try reflexivity.
  all: destruct (resp_status resp =? 204); cbn; try reflexivity.
  all: destruct (str_in "text/event-stream" (or_empty (resp_content_type resp)));
    cbn; try reflexivity.
  all: try (destruct (resp_text resp); cbn; reflexivity).
  all: try (destruct (resp_json resp); cbn; reflexivity).
Qed.

(** [connect] in closed form: two requests, the flag set in between, and
    every exception turned into [False]. *)
Lemma connect_unfold (w : World) :
  connect w =
  match _mcp_request "initialize"
          (Some (initialize_params (entity (self w)))) false w with
  | (Raise _, w1) => (Return false, w1)
  | (Return _, w1) =>
      match _mcp_request "notifications/initialized" None true
              (marked_ready w1) with
      | (Raise _, w2) => (Return false, w2)
      | (Return _, w2) => (Return true, w2)
      end
  end.
Proof.
  unfold connect, try_except, bind, get_self at 1, marked_ready.
  destruct (_mcp_request "initialize" _ false w) as [[r|e] w1]; cbn;
    [|reflexivity].
  destruct (_mcp_request "notifications/initialized" None true _)
    as [[r'|e'] w2]; reflexivity.
Qed.

(** [connect] returns a boolean whatever the remote end does. *)
Lemma connect_returns (w : World) :
  exists b, fst (connect w) = Return b.
Proof.
  rewrite connect_unfold.
  destruct (_mcp_request "initialize" _ false w) as [[r|e] w1]; cbn;
    [|eauto].
  destruct (_mcp_request "notifications/initialized" None true _)
    as [[r'|e'] w2]; cbn; eauto.
Qed.

(** [_call_tool] in closed form: the guarded [connect], one request, and
    the unwrapping of its result. *)
Lemma call_tool_unfold (tool_name : string) (arguments : value) (w : World) :
  _call_tool tool_name arguments w =
  match _mcp_request "tools/call" (Some (tool_params tool_name arguments))
          false (after_guard w) with
  | (Return result, w2) => (unwrap_content result, w2)
  | (Raise e, w2) => (Raise e, w2)
  end.
Proof.
  unfold _call_tool, after_guard, bind, get_self at 1, lift, ret.
  destruct (_initialized (self w)); cbn.
  - destruct (_mcp_request "tools/call" _ false w) as [[r|e] w2]; reflexivity.
  - destruct (connect_returns w) as [b Hb].
    destruct (connect w) as [[b'|e] w1]; cbn in *; [|discriminate].
    destruct (_mcp_request "tools/call" _ false w1) as [[r|e] w2];
      reflexivity.
Qed.

(** *** What one request does to each attribute *)

Lemma prepared_request_id (is_notification : bool) (c : MemoRableClient) :
  _request_id (prepared is_notification c) =
  if is_notification then _request_id c else _request_id c + 1.
Proof.
  unfold prepared, with_session.
  destruct is_notification, (_session c) as [[[|]]|]; reflexivity.
Qed.

Lemma prepared_initialized (is_notification : bool) (c : MemoRableClient) :
  _initialized (prepared is_notification c) = _initialized c.
Proof.
  unfold prepared, with_session.
  destruct is_notification, (_session c) as [[[|]]|]; reflexivity.
Qed.

Lemma prepared_mcp_session_id (is_notification : bool) (c : MemoRableClient) :
  _mcp_session_id (prepared is_notification c) = _mcp_session_id c.
Proof.
  unfold prepared, with_session.
  destruct is_notification, (_session c) as [[[|]]|]; reflexivity.
Qed.

Lemma prepared_identity (is_notification : bool) (c : MemoRableClient) :
  mcp_url (prepared is_notification c) = mcp_url c
  /\ entity (prepared is_notification c) = entity c.
Proof.
  unfold prepared, with_session.
  destruct is_notification, (_session c) as [[[|]]|]; split; reflexivity.
Qed.

Lemma store_request_id (resp : Response) (c : MemoRableClient) :
  _request_id (store_session_id resp c) = _request_id c.
Proof.
  unfold store_session_id. destruct (truthy_str _); reflexivity.
Qed.

Lemma store_initialized (resp : Response) (c : MemoRableClient) :
  _initialized (store_session_id resp c) = _initialized c.
Proof.
  unfold store_session_id. destruct (truthy_str _); reflexivity.
Qed.

(** The log grows by exactly the request posted. *)
Lemma mcp_request_sent (method : string) (params : option value)
  (is_notification : bool) (w : World) :
  sent (snd (_mcp_request method params is_notification w)) =
  (sent w ++ [next_request method params is_notification w])%list.
Proof.
  rewrite mcp_request_unfold. cbn.
  destruct (session_post _ _) as [[resp|e] n']; reflexivity.
Qed.

(** The counter moves by one for a request and stays for a notification,
    whatever the answer. *)
Lemma mcp_request_request_id (method : string) (params : option value)
  (is_notification : bool) (w : World) :
  _request_id (self (snd (_mcp_request method params is_notification w))) =
  if is_notification then _request_id (self w) else _request_id (self w) + 1.
Proof.
  rewrite mcp_request_unfold. cbn.
  destruct (session_post _ _) as [[resp|e] n']; cbn;
    rewrite ?store_request_id; apply prepared_request_id.
Qed.

(** No request touches the [_initialized] flag. *)
Lemma mcp_request_initialized (method : string) (params : option value)
  (is_notification : bool) (w : World) :
  _initialized (self (snd (_mcp_request method params is_notification w))) =
  _initialized (self w).
Proof.
  rewrite mcp_request_unfold. cbn.
  destruct (session_post _ _) as [[resp|e] n']; cbn;
    rewrite ?store_initialized; apply prepared_initialized.
Qed.

(** The id a posted request carries. *)
Lemma id_of_next_request (method : string) (params : option value)
  (is_notification : bool) (w : World) :
  id_of (next_request method params is_notification w) =
  if is_notification then [] else [_request_id (self w) + 1].
Proof.
  unfold id_of, next_request, envelope. cbn.
  destruct is_notification; cbn; [|reflexivity].
  destruct params; reflexivity.
Qed.

Lemma method_of_next_request (method : string) (params : option value)
  (is_notification : bool) (w : World) :
  method_of (next_request method params is_notification w) = Some method.
Proof. reflexivity. Qed.

Lemma ids_sent_app (l1 l2 : list Request) :
  ids_sent (l1 ++ l2)%list = (ids_sent l1 ++ ids_sent l2)%list.
Proof. apply flat_map_app. Qed.

(** *** Request ids *)

Lemma close_unfold (w : World) :
  close w =
  (Return tt,
   {| self := closed_client (self w); net := net w; sent := sent w |}).
Proof.
  unfold close, closed_client, bind, get_self, modify_self, ret.
  destruct w as [c n log]; cbn.
  destruct (_session c) as [[[|]]|]; reflexivity.
Qed.

Lemma closed_client_request_id (c : MemoRableClient) :
  _request_id (closed_client c) = _request_id c.
Proof.
  unfold closed_client. destruct (_session c) as [[[|]]|]; reflexivity.
Qed.

Lemma ids_sent_single (rq : Request) : ids_sent [rq] = id_of rq.
Proof. unfold ids_sent. cbn. apply app_nil_r. Qed.

Lemma counted_step (w w' : World) (is_notification : bool) (rq : Request) :
  counted w ->
  sent w' = (sent w ++ [rq])%list ->
  _request_id (self w') =
    (if is_notification then _request_id (self w)
     else _request_id (self w) + 1) ->
  id_of rq = (if is_notification then [] else [_request_id (self w) + 1]) ->
  counted w'.
Proof.
  intros [k [Hk Hids]] Hsent Hrid Hid.
  destruct is_notification.
  - exists k. rewrite Hrid, Hsent, ids_sent_app, ids_sent_single, Hid, Hids.
    rewrite app_nil_r. auto.
  - exists (S k).
    rewrite Hrid, Hsent, ids_sent_app, ids_sent_single, Hid, Hids, Hk.
    split; [lia|].
    rewrite seq_S, map_app. cbn [map]. do 3 f_equal. lia.
Qed.

Lemma counted_same (w w' : World) :
  counted w ->
  sent w' = sent w ->
  _request_id (self w') = _request_id (self w) ->
  counted w'.
Proof.
  intros [k [Hk Hids]] Hsent Hrid. exists k. rewrite Hrid, Hsent. auto.
Qed.

Lemma counted_mcp_request (method : string) (params : option value)
  (is_notification : bool) (w : World) :
  counted w -> counted (snd (_mcp_request method params is_notification w)).
Proof.
  intro H.
  apply (counted_step w _ is_notification
           (next_request method params is_notification w) H).
  - apply mcp_request_sent.
  - apply mcp_request_request_id.
  - apply id_of_next_request.
Qed.

Lemma counted_connect (w : World) : counted w -> counted (snd (connect w)).
Proof.
  intro H. rewrite connect_unfold.
  pose proof (counted_mcp_request "initialize"
                (Some (initialize_params (entity (self w)))) false w H) as H1.
  destruct (_mcp_request "initialize" _ false w) as [[r|e] w1]; cbn in *;
    [|exact H1].
  assert (H1' : counted (marked_ready w1))
    by (apply (counted_same w1); auto).
  pose proof (counted_mcp_request "notifications/initialized" None true
                (marked_ready w1) H1') as H2.
  destruct (_mcp_request "notifications/initialized" None true _)
    as [[r'|e'] w2]; exact H2.
Qed.

Lemma counted_close (w : World) : counted w -> counted (snd (close w)).
Proof.
  intro H. rewrite close_unfold. cbn.
  apply (counted_same w); auto. cbn. apply closed_client_request_id.
Qed.

Lemma counted_call_tool (tool_name : string) (arguments : value) (w : World) :
  counted w -> counted (snd (_call_tool tool_name arguments w)).
Proof.
  intro H. rewrite call_tool_unfold.
  assert (Hg : counted (after_guard w)).
  { unfold after_guard. destruct (_initialized (self w)); auto.
    apply counted_connect; auto. }
  pose proof (counted_mcp_request "tools/call"
                (Some (tool_params tool_name arguments)) false _ Hg) as H1.
  destruct (_mcp_request "tools/call" _ false (after_guard w))
    as [[r|e] w2]; exact H1.
Qed.

Lemma counted_perform (c : call) (w : World) :
  counted w -> counted (perform c w).
Proof.
  destruct c; cbn [perform]; intro H;
    [ apply counted_mcp_request | apply counted_mcp_request
    | apply counted_connect | apply counted_call_tool
    | apply counted_close ]; exact H.
Qed.

Lemma counted_run (calls : list call) (w : World) :
  counted w -> counted (run calls w).
Proof.
  revert w. induction calls as [|c calls IH]; intros w H; cbn; auto.
  apply IH, counted_perform, H.
Qed.

(** C5. Request ids of one client start at 1 and go up by exactly 1 per
    non-notification request, in the order of the calls: after any
    sequence of uses of a newly constructed client (requests,
    notifications, [connect], tool calls, [close], returning or raising),
    the ids that were sent are 1, 2, ..., k and the counter is k.  A
    request carries the counter plus one and moves the counter by one; a
    notification carries no id and leaves the counter alone; [close]
    leaves the counter alone; a new client starts the counter at 0. *)
Theorem request_ids_count_up_by_one :
  (forall (url ent dev_id dev_type : string) (n0 : Net) (calls : list call),
      let w := run calls {| self := __init__ url ent dev_id dev_type;
                            net := n0; sent := [] |} in
      exists k : nat,
        _request_id (self w) = Z.of_nat k
        /\ ids_sent (sent w) = map Z.of_nat (seq 1 k))
  /\ (forall method params w,
        let w' := snd (_mcp_request method params false w) in
        sent w' = (sent w ++ [next_request method params false w])%list
        /\ id_of (next_request method params false w)
           = [_request_id (self w) + 1]
        /\ _request_id (self w') = _request_id (self w) + 1)
  /\ (forall method params w,
        let w' := snd (_mcp_request method params true w) in
        sent w' = (sent w ++ [next_request method params true w])%list
        /\ id_of (next_request method params true w) = []
        /\ _request_id (self w') = _request_id (self w))
  /\ (forall w,
        _request_id (self (snd (close w))) = _request_id (self w)
        /\ sent (snd (close w)) = sent w)
  /\ (forall url ent dev_id dev_type,
        _request_id (__init__ url ent dev_id dev_type) = 0).
Proof.
  split; [|split; [|split; [|split]]].
  - intros. apply counted_run. exists O. split; reflexivity.
  - intros method params w w'. subst w'. split; [|split].
    + apply mcp_request_sent.
    + apply (id_of_next_request method params false).
    + apply (mcp_request_request_id method params false).
  - intros method params w w'. subst w'. split; [|split].
    + apply mcp_request_sent.
    + apply (id_of_next_request method params true).
    + apply (mcp_request_request_id method params true).
  - intro w. rewrite close_unfold. cbn. split; [|reflexivity].
    apply closed_client_request_id.
  - reflexivity.
Qed.

(** *** Decoding *)

Lemma has_key_lookup (k : string) (d : list (string * value)) :
  has_key k d = false <-> lookup k d = None.
Proof.
  unfold has_key. destruct (lookup k d); split; congruence.
Qed.

Lemma has_key_true (k : string) (d : list (string * value)) :
  has_key k d = true <-> exists v, lookup k d = Some v.
Proof.
  unfold has_key. destruct (lookup k d); split; eauto; try congruence.
  intros [v H]. discriminate.
Qed.

(** The plain-JSON branch on an object. *)
Lemma extract_result_object (d : list (string * value)) :
  extract_result (VDict d) = document_outcome d.
Proof.
  unfold extract_result, document_outcome. cbn. unfold has_key.
  destruct (lookup "result" d); cbn; [reflexivity|].
  destruct (lookup "error" d); reflexivity.
Qed.

(** One step of the scan on a frame holding an object. *)
Lemma sse_scan_object (line : string) (rest : list string)
  (d : list (string * value)) :
  frame line d ->
  sse_scan (line :: rest) =
  if bearing d then document_outcome d else sse_scan rest.
Proof.
  intros [Hp Hd]. cbn [sse_scan]. rewrite Hp, Hd.
  unfold bearing, document_outcome. cbn. unfold has_key.
  destruct (lookup "result" d); cbn; [reflexivity|].
  destruct (lookup "error" d); reflexivity.
Qed.

Lemma sse_scan_passed_over (pre rest : list string) :
  Forall passed_over pre -> sse_scan (pre ++ rest) = sse_scan rest.
Proof.
  induction 1 as [|line pre Hline _ IH]; [reflexivity|].
  cbn [app]. destruct Hline as [Hn | [d [Hd Hb]]].
  - cbn [sse_scan]. rewrite Hn. exact IH.
  - destruct (startswith "data: " line) eqn:Hp.
    + rewrite (sse_scan_object line _ d (conj Hp Hd)), Hb. exact IH.
    + cbn [sse_scan]. rewrite Hp. exact IH.
Qed.

(** The scan stops at the first bearing frame. *)
Lemma sse_scan_first_frame (lines : list string) (d : list (string * value)) :
  first_frame lines d -> sse_scan lines = document_outcome d.
Proof.
  intros [pre [line [post [-> [Hpre [Hf Hb]]]]]].
  rewrite (sse_scan_passed_over pre _ Hpre),
    (sse_scan_object line post d Hf), Hb.
  reflexivity.
Qed.


(** The outcome of a request that the remote end answered with a body. *)
Lemma mcp_request_answered (method : string) (params : option value)
  (w : World) (resp : Response) (n' : Net) :
  session_post (net w) (next_request method params false w)
    = (Return resp, n') ->
  fst (_mcp_request method params false w) = decode_result false resp.
Proof.
  intro H. rewrite mcp_request_unfold. cbn. rewrite H. reflexivity.
Qed.

Lemma decode_result_body (resp : Response) :
  resp_status resp <> 202 ->
  resp_status resp <> 204 ->
  decode_result false resp =
  if str_in "text/event-stream" (or_empty (resp_content_type resp))
  then res_bind (resp_text resp) (fun body => sse_scan (str_split LF body))
  else res_bind (resp_json resp) extract_result.
Proof.
  intros H2 H4. unfold decode_result.
  destruct (Z.eqb_spec (resp_status resp) 202); [contradiction|].
  destruct (Z.eqb_spec (resp_status resp) 204); [contradiction|].
  reflexivity.
Qed.

(** Decoding a response that answers with the document [d]. *)
Lemma decode_result_document (resp : Response) (d : list (string * value)) :
  resp_status resp <> 202 ->
  resp_status resp <> 204 ->
  answers_with resp d ->
  decode_result false resp = document_outcome d.
Proof.
  intros H2 H4 Ha. rewrite (decode_result_body resp H2 H4).
  unfold answers_with in Ha.
  destruct (str_in "text/event-stream" _).
  - destruct Ha as [body [-> Hf]]. cbn. apply sse_scan_first_frame, Hf.
  - rewrite Ha. cbn. apply extract_result_object.
Qed.

(** C2 (amended). When a decoded response document contains a [result]
    key, [_mcp_request] returns its value whether or not an [error] key is
    present as well; it fails with the error payload only when the document
    has an [error] key and no [result] key.  This holds in both decoding
    branches: for the object of a plain JSON body and for the first
    bearing frame of an event stream. *)
Theorem result_takes_precedence_over_error
  (method : string) (params : option value) (w : World) (resp : Response)
  (n' : Net) (d : list (string * value)) :
  session_post (net w) (next_request method params false w)
    = (Return resp, n') ->
  resp_status resp <> 202 ->
  resp_status resp <> 204 ->
  answers_with resp d ->
  (forall r, lookup "result" d = Some r ->
             fst (_mcp_request method params false w) = Return r)
  /\ (forall p, lookup "result" d = None -> lookup "error" d = Some p ->
                fst (_mcp_request method params false w)
                = Raise (MCP_error p)).
Proof.
  intros Hpost H2 H4 Ha.
  rewrite (mcp_request_answered method params w resp n' Hpost),
    (decode_result_document resp d H2 H4 Ha).
  unfold document_outcome. split.
  - intros r ->. reflexivity.
  - intros p -> ->. reflexivity.
Qed.


(** C6 (amended). A non-empty [Mcp-Session-Id] response header is stored in
    the session state, overwriting any previous value, before the body is
    decoded and whatever decoding then returns or raises; the stored id is
    attached as a request header on the very next request.  An absent or
    empty header leaves the stored id as it was. *)
Theorem session_id_header_is_stored_and_echoed
  (method : string) (params : option value) (is_notification : bool)
  (w : World) (resp : Response) (n' : Net) :
  session_post (net w) (next_request method params is_notification w)
    = (Return resp, n') ->
  let w' := snd (_mcp_request method params is_notification w) in
  (forall sid,
      resp_session_id resp = Some sid -> sid <> EmptyString ->
      _mcp_session_id (self w') = Some sid
      /\ forall method' params' is_notification',
          let rq := next_request method' params' is_notification' w' in
          In ("Mcp-Session-Id", sid) (req_headers rq)
          /\ sent (snd (_mcp_request method' params' is_notification' w'))
             = (sent w' ++ [rq])%list)
  /\ (truthy_str (resp_session_id resp) = false ->
      _mcp_session_id (self w') = _mcp_session_id (self w)).
Proof.
  intros Hpost w'. subst w'.
  rewrite mcp_request_unfold. cbn zeta. rewrite Hpost. cbn [snd self].
  split.
  - intros sid Hsid Hne.
    assert (Hstored :
      _mcp_session_id
        (store_session_id resp (prepared is_notification (self w)))
      = Some sid).
    { unfold store_session_id. rewrite Hsid.
      destruct sid; [contradiction|]. reflexivity. }
    split; [exact Hstored|].
    intros method' params' is_notification'. split.
    + unfold next_request, request_headers. cbn [req_headers self].
      rewrite Hstored. destruct sid; [contradiction|].
      cbn. auto.
    + apply mcp_request_sent.
  - intro Hfalse. unfold store_session_id. rewrite Hfalse.
    apply prepared_mcp_session_id.
Qed.

(** C4 (amended). [connect] has no guard: called on a session that is
    already Ready it posts a new [initialize] request, which consumes the
    next request id.  The guard is in [_call_tool]: on a Ready session it
    posts its [tools/call] request and nothing else. *)
Theorem ready_guard_is_in_call_tool (w : World) :
  _initialized (self w) = true ->
  (exists rest,
      let rq := next_request "initialize"
                  (Some (initialize_params (entity (self w)))) false w in
      sent (snd (connect w)) = (sent w ++ rq :: rest)%list
      /\ method_of rq = Some "initialize"
      /\ id_of rq = [_request_id (self w) + 1])
  /\ (forall tool_name arguments,
        sent (snd (_call_tool tool_name arguments w))
        = (sent w ++ [next_request "tools/call"
                        (Some (tool_params tool_name arguments)) false w])
            %list).
Proof.
  intro Hready. split.
  - rewrite connect_unfold.
    pose proof (mcp_request_sent "initialize"
                  (Some (initialize_params (entity (self w)))) false w) as H1.
    destruct (_mcp_request "initialize" _ false w) as [[r|e] w1];
      cbn [snd] in *.
    + pose proof (mcp_request_sent "notifications/initialized" None true
                    (marked_ready w1)) as H2.
      destruct (_mcp_request "notifications/initialized" None true _)
        as [[r'|e'] w2]; cbn [snd] in *;
        (eexists; split; [|split; reflexivity]);
        rewrite H2; cbn [marked_ready sent]; rewrite H1, <- app_assoc;
        reflexivity.
    + exists []. split; [exact H1|split; reflexivity].
  - intros tool_name arguments. rewrite call_tool_unfold.
    unfold after_guard. rewrite Hready.
    pose proof (mcp_request_sent "tools/call"
                  (Some (tool_params tool_name arguments)) false w) as H1.
    destruct (_mcp_request "tools/call" _ false w) as [[r|e] w2]; exact H1.
Qed.

(** *** Tool calls *)







(** *** Connecting *)

(** When the [initialize] request raises, [connect] returns [False] and
    leaves the flag as it found it. *)
Lemma connect_initialize_raises (w : World) (e : exn) :
  fst (_mcp_request "initialize"
         (Some (initialize_params (entity (self w)))) false w) = Raise e ->
  fst (connect w) = Return false
  /\ _initialized (self (snd (connect w))) = _initialized (self w).
Proof.
  intro H. rewrite connect_unfold.
  pose proof (mcp_request_initialized "initialize"
                (Some (initialize_params (entity (self w)))) false w) as Hi.
  destruct (_mcp_request "initialize" _ false w) as [[r|e'] w1];
    cbn [fst snd] in *; [discriminate|].
  split; [reflexivity|exact Hi].
Qed.

(** When the [initialize] request returns, the flag is set, whatever
    becomes of the notification. *)
Lemma connect_initialize_returns (w : World) (r : value) :
  fst (_mcp_request "initialize"
         (Some (initialize_params (entity (self w)))) false w) = Return r ->
  _initialized (self (snd (connect w))) = true.
Proof.
  intro H. rewrite connect_unfold.
  destruct (_mcp_request "initialize" _ false w) as [[r'|e'] w1];
    cbn [fst] in *; [|discriminate].
  pose proof (mcp_request_initialized "notifications/initialized" None true
                (marked_ready w1)) as Hi.
  destruct (_mcp_request "notifications/initialized" None true _)
    as [[r2|e2] w2]; cbn [snd] in *; exact Hi.
Qed.

End Properties.

(** *** Record normalizers *)

Lemma string_app_assoc (a b c : string) : ((a ++ b) ++ c = a ++ (b ++ c))%string.
Proof.
  induction a as [|x a IH]; cbn; [reflexivity|]. now rewrite IH.
Qed.

Lemma prefix_empty (s : string) : String.prefix EmptyString s = true.
Proof. destruct s; reflexivity. Qed.

(** One step of [replace] for a one-character pattern. *)
Lemma str_replace_char_cons (c x : ascii) (new s : string) :
  str_replace (String c EmptyString) new (String x s) =
  if Ascii.eqb c x
  then (new ++ str_replace (String c EmptyString) new s)%string
  else String x (str_replace (String c EmptyString) new s).
Proof.
  unfold str_replace. cbn [str_replace_from String.prefix].
  destruct (ascii_dec c x) as [->|Hne].
  - rewrite prefix_empty, Ascii.eqb_refl. reflexivity.
  - apply Ascii.eqb_neq in Hne. rewrite Hne. reflexivity.
Qed.

(** Replacing a one-character pattern goes through concatenation. *)
Lemma str_replace_char_app (c : ascii) (new a b : string) :
  str_replace (String c EmptyString) new (a ++ b) =
  (str_replace (String c EmptyString) new a
   ++ str_replace (String c EmptyString) new b)%string.
Proof.
  induction a as [|x a IH]; [reflexivity|].
  cbn [append]. rewrite !str_replace_char_cons, IH.
  destruct (Ascii.eqb c x); [|reflexivity].
  now rewrite string_app_assoc.
Qed.

Section Normalizers.
Context {dt : DatetimeLib}.

(** C9. Normalizing the map with [content] "hi" and [timestamp]
    "2024-01-01T00:00:00Z" gives a Memory whose timestamp is the datetime
    that the text 2024-01-01T00:00:00+00:00 denotes and whose salience is
    the default 50.  A trailing [Z] is treated as the offset [+00:00]: a
    timestamp string ending in [Z] normalizes exactly as the same string
    ending in [+00:00].  When the map has neither a [timestamp] nor a
    [createdAt] member, the timestamp is the wall-clock reading taken at
    normalization (the library reading back the ISO text it wrote). *)
Theorem memory_from_dict_timestamp (now : datetime) :
  (forall d,
      fromisoformat "2024-01-01T00:00:00+00:00" = Some d ->
      exists m,
        Memory.from_dict now
          [("content", VStr "hi");
           ("timestamp", VStr "2024-01-01T00:00:00Z")] = Return m
        /\ Memory.timestamp m = Memory.Parsed d
        /\ Memory.salience m = VInt 50
        /\ Memory.content m = VStr "hi")
  /\ (forall p rest,
        Memory.from_dict now (("timestamp", VStr (p ++ "Z")) :: rest) =
        Memory.from_dict now (("timestamp", VStr (p ++ "+00:00")) :: rest))
  /\ (forall data,
        lookup "timestamp" data = None ->
        lookup "createdAt" data = None ->
        fromisoformat (str_replace "Z" "+00:00" (isoformat now)) = Some now ->
        exists m,
          Memory.from_dict now data = Return m
          /\ Memory.timestamp m = Memory.Parsed now).
Proof.
  split; [|split].
  - intros d Hd. unfold Memory.from_dict.
    change (dict_get [("content", VStr "hi");
                      ("timestamp", VStr "2024-01-01T00:00:00Z")]
              "timestamp"
              (dict_get [("content", VStr "hi");
                         ("timestamp", VStr "2024-01-01T00:00:00Z")]
                 "createdAt" (VStr (isoformat now))))
      with (VStr "2024-01-01T00:00:00Z").
    cbv beta iota.
    change (str_replace "Z" "+00:00" "2024-01-01T00:00:00Z")
      with "2024-01-01T00:00:00+00:00".
    rewrite Hd. cbn [res_bind]. eexists. split; [reflexivity|].
    cbn. auto.
  - intros p rest. unfold Memory.from_dict.
    change (dict_get (("timestamp", VStr (p ++ "Z")) :: rest) "timestamp"
              (dict_get (("timestamp", VStr (p ++ "Z")) :: rest) "createdAt"
                 (VStr (isoformat now))))
      with (VStr (p ++ "Z")).
    change (dict_get (("timestamp", VStr (p ++ "+00:00")) :: rest)
              "timestamp"
              (dict_get (("timestamp", VStr (p ++ "+00:00")) :: rest)
                 "createdAt" (VStr (isoformat now))))
      with (VStr (p ++ "+00:00")).
    cbv beta iota.
    rewrite (str_replace_char_app "Z" "+00:00" p "Z"),
      (str_replace_char_app "Z" "+00:00" p "+00:00").
    change (str_replace "Z" "+00:00" "Z") with "+00:00".
    change (str_replace "Z" "+00:00" "+00:00") with "+00:00".
    reflexivity.
  - intros data Ht Hc Hround. unfold Memory.from_dict.
    unfold dict_get at 1 2. rewrite Ht, Hc, Hround. cbn [res_bind].
    eexists. split; reflexivity.
Qed.

End Normalizers.

(** *** The singleton *)

(** C10. The first call of [get_memorable_client] constructs the client
    from its arguments and records it in the module global; from then on
    every call returns that same object (the same reference, into an
    unchanged heap) and ignores its four arguments, whatever they are. *)
Theorem singleton_ignores_later_arguments
  (p : Singleton.Process) (url ent dev_id dev_type : string) :
  Singleton._client p = None ->
  let a := fst (Singleton.get_memorable_client url ent dev_id dev_type p) in
  let p1 := snd (Singleton.get_memorable_client url ent dev_id dev_type p) in
  Singleton.deref p1 a = Some (__init__ url ent dev_id dev_type)
  /\ Singleton._client p1 = Some a
  /\ (forall q url' ent' dev_id' dev_type',
        Singleton._client q = Some a ->
        Singleton.get_memorable_client url' ent' dev_id' dev_type' q = (a, q))
  /\ (forall url' ent' dev_id' dev_type',
        Singleton.get_memorable_client url' ent' dev_id' dev_type' p1
        = (a, p1)).
Proof.
  intros Hnone a p1.
  assert (Ha : a = length (Singleton.heap p)).
  { subst a. unfold Singleton.get_memorable_client. rewrite Hnone.
    reflexivity. }
  assert (Hp1 : p1 = {| Singleton.heap :=
                          (Singleton.heap p
                           ++ [__init__ url ent dev_id dev_type])%list;
                        Singleton._client := Some a |}).
  { subst p1. rewrite Ha. unfold Singleton.get_memorable_client.
    rewrite Hnone. reflexivity. }
  assert (Hq : forall q url' ent' dev_id' dev_type',
             Singleton._client q = Some a ->
             Singleton.get_memorable_client url' ent' dev_id' dev_type' q
             = (a, q)).
  { intros q url' ent' dev_id' dev_type' Hq.
    unfold Singleton.get_memorable_client. rewrite Hq. reflexivity. }
  clearbody a p1. subst p1.
  split; [|split; [reflexivity|split; [exact Hq|]]].
  - unfold Singleton.deref. cbn [Singleton.heap]. rewrite Ha.
    rewrite nth_error_app2 by apply Nat.le_refl.
    rewrite Nat.sub_diag. reflexivity.
  - intros. apply Hq. reflexivity.
Qed.

(** ** The statements at concrete inputs *)



(** C2, counterexample: a response document with both a [result] and an
    [error] key makes [_mcp_request] return the result, not fail with the
    error, in the plain-JSON branch and in the SSE branch alike. *)
Lemma result_wins_when_both_keys_present :
  lookup "error" both_keys = Some (VInt 7)
  /\ Json.loads both_keys_text = Some (VDict both_keys)
  /\ (let out := fst (@_mcp_request scripted json_lite "tools/call" None false
                        (fresh [Return (json_response None
                                          (VDict both_keys))])) in
      out = Return (VInt 1) /\ out <> Raise (MCP_error (VInt 7)))
  /\ (let out := fst (@_mcp_request scripted json_lite "tools/call" None false
                        (fresh [Return (sse_response None
                                          ("data: " ++ both_keys_text))])) in
      out = Return (VInt 1) /\ out <> Raise (MCP_error (VInt 7))).
Proof.
  split; [reflexivity|]. split; [reflexivity|].
  split; cbv zeta; (split; [reflexivity|discriminate]).
Qed.

(** C2, witness: the plain-JSON document with both keys. *)
Lemma result_takes_precedence_over_error_witness :
  fst (@_mcp_request scripted json_lite "tools/call" None false
         (fresh [Return (json_response None (VDict both_keys))]))
  = Return (VInt 1).
Proof.
  refine (proj1 (result_takes_precedence_over_error
                   (remote := scripted) (jsonlib := json_lite)
                   "tools/call" None
                   (fresh [Return (json_response None (VDict both_keys))])
                   (json_response None (VDict both_keys)) [] both_keys
                   _ _ _ _)
            (VInt 1) _).
  - reflexivity.
  - cbn. lia.
  - cbn. lia.
  - reflexivity.
  - reflexivity.
Defined.

(** C3. A new client whose [initialize] request is answered and whose
    [initialized] notification is dropped: [connect] returns [False], yet
    the session is left marked Ready. *)
Theorem connect_dropped_notification_leaves_ready :
  let after := @connect scripted json_lite (fresh [init_ok; dropped]) in
  _initialized (self (fresh [init_ok; dropped])) = false
  /\ fst after = Return false
  /\ _initialized (self (snd after)) = true
  /\ length (sent (snd after)) = 2%nat.
Proof. cbv zeta. repeat split. Qed.

(** C4, counterexample: [connect] on a Ready session posts a new
    [initialize] request with the next id; it even returns [False] when
    that request is dropped. *)
Lemma connect_on_ready_session_posts_initialize :
  (let w := ready [dropped] in
   _initialized (self w) = true
   /\ fst (@connect scripted json_lite w) = Return false
   /\ map method_of
        (sent (snd (@connect scripted json_lite w)))
      = [Some "initialize"; Some "notifications/initialized";
         Some "initialize"])
  /\ (let w := ready [init_ok; accepted] in
      _initialized (self w) = true
      /\ fst (@connect scripted json_lite w) = Return true
      /\ map method_of
           (sent (snd (@connect scripted json_lite w)))
         = [Some "initialize"; Some "notifications/initialized";
            Some "initialize"; Some "notifications/initialized"]
      /\ ids_sent (sent (snd (@connect scripted json_lite w))) = [1; 2]).
Proof. cbv zeta. repeat split. Qed.

(** C4, witness: a connected client. *)
Lemma ready_guard_is_in_call_tool_witness :
  let w := ready [tool_answer (text_block "ok")] in
  _initialized (self w) = true
  /\ sent (snd (@_call_tool scripted json_lite "recall" (VDict []) w))
     = (sent w ++ [next_request "tools/call"
                     (Some (tool_params "recall" (VDict []))) false w])%list.
Proof.
  intro w. split; [reflexivity|].
  exact (proj2 (ready_guard_is_in_call_tool
                  (remote := scripted) (jsonlib := json_lite) w eq_refl)
           "recall" (VDict [])).
Defined.

(** C6, counterexample: a session-id header that is present but empty is
    not stored; the id assigned before stays and is the one echoed. *)
Lemma empty_session_id_header_is_not_stored :
  let answer := json_response (Some EmptyString) (VDict [("result", VInt 2)])
  in
  let w := ready [Return answer] in
  let w' := snd (@_mcp_request scripted json_lite "tools/list" None false w)
  in
  resp_session_id answer = Some EmptyString
  /\ _mcp_session_id (self w) = Some "s1"
  /\ _mcp_session_id (self w') = Some "s1"
  /\ _mcp_session_id (self w') <> resp_session_id answer.
Proof. cbv zeta. repeat split. discriminate. Qed.

(** C6, witness: an error response that carries a new session id; the
    request raises the remote error, the id is stored over the old one and
    goes out with the next request. *)
Lemma session_id_header_is_stored_and_echoed_witness :
  let w := ready [Return rejection] in
  let w' := snd (@_mcp_request scripted json_lite "tools/list" None false w)
  in
  _mcp_session_id (self w) = Some "s1"
  /\ fst (@_mcp_request scripted json_lite "tools/list" None false w)
     = Raise (MCP_error (VDict [("code", VInt (-32600))]))
  /\ _mcp_session_id (self w') = Some "s2"
  /\ In ("Mcp-Session-Id", "s2")
       (req_headers (next_request "tools/call" None false w')).
Proof.
  intros w w'.
  destruct (proj1 (session_id_header_is_stored_and_echoed
                     (remote := scripted) (jsonlib := json_lite)
                     "tools/list" None false w rejection [] eq_refl)
              "s2" eq_refl ltac:(discriminate))
    as [Hstored Hnext].
  split; [reflexivity|]. split; [reflexivity|].
  split; [exact Hstored|].
  exact (proj1 (Hnext "tools/call" None false)).
Defined.


(** A first content block without a [text] member unwraps to the default
    text, the empty string, which does not parse and comes back as it is. *)
Lemma block_without_text_yields_empty_string :
  let out := fst (@_call_tool scripted json_lite "recall" (VDict [])
                    (ready [tool_answer image_block])) in
  out = Return (VStr EmptyString) /\ out <> Return image_block.
Proof. cbv zeta. split; [reflexivity|discriminate]. Qed.


(** C9, witness: the executable ISO reader and a wall-clock reading. *)
Lemma memory_from_dict_timestamp_witness :
  exists m,
    Memory.from_dict (dt := iso_lite) a_clock [("content", VStr "hi")]
    = Return m
    /\ Memory.timestamp m = Memory.Parsed a_clock.
Proof.
  exact (proj2 (proj2 (memory_from_dict_timestamp (dt := iso_lite) a_clock))
           [("content", VStr "hi")] eq_refl eq_refl eq_refl).
Defined.

(** C10, witness: the first two calls in a new process. *)
Lemma singleton_ignores_later_arguments_witness :
  let first := Singleton.get_memorable_client "http://a/mcp" "chloe"
                 "johnny5-main" "robot" Singleton.start in
  Singleton.get_memorable_client "http://b/mcp" "ada" "laptop" "desktop"
    (snd first) = (fst first, snd first)
  /\ option_map mcp_url (Singleton.deref (snd first) (fst first))
     = Some "http://a/mcp".
Proof.
  intro first.
  destruct (singleton_ignores_later_arguments Singleton.start
              "http://a/mcp" "chloe" "johnny5-main" "robot" eq_refl)
    as [Hobj [_ [_ Hlater]]].
  split.
  - exact (Hlater "http://b/mcp" "ada" "laptop" "desktop").
  - subst first. rewrite Hobj. reflexivity.
Defined.

(** ** Further properties of the transport and the session *)

Section Session.
Context {remote : Remote} {jsonlib : JsonLib}.

(** X1. [connect] never raises, whatever the remote end does: it returns
    a boolean.  When it returns [True] the session is marked Ready and
    exactly two requests were posted, [initialize] and then the
    [notifications/initialized] notification. *)
Theorem connect_never_raises (w : World) :
  exists b,
    fst (connect w) = Return b
    /\ (b = true ->
        _initialized (self (snd (connect w))) = true
        /\ map method_of (sent (snd (connect w)))
           = (map method_of (sent w)
              ++ [Some "initialize"; Some "notifications/initialized"])%list).
Proof.
  rewrite connect_unfold.
  pose proof (mcp_request_sent "initialize"
                (Some (initialize_params (entity (self w)))) false w) as H1.
  destruct (_mcp_request "initialize" _ false w) as [[r|e] w1];
    cbn [fst snd] in *.
  - pose proof (mcp_request_sent "notifications/initialized" None true
                  (marked_ready w1)) as H2.
    pose proof (mcp_request_initialized "notifications/initialized" None true
                  (marked_ready w1)) as Hi.
    destruct (_mcp_request "notifications/initialized" None true _)
      as [[r'|e'] w2]; cbn [fst snd] in *.
    + exists true. split; [reflexivity|]. intros _. split; [exact Hi|].
      rewrite H2. cbn [marked_ready sent]. rewrite H1, !map_app.
      rewrite <- app_assoc. reflexivity.
    + exists false. split; [reflexivity|]. discriminate.
  - exists false. split; [reflexivity|]. discriminate.
Qed.

(** X2. On a session that is not Ready, [_call_tool] runs the handshake
    first and then posts its [tools/call] request in any case, also when
    the handshake failed: the log grows by the [initialize] request, at
    most one [notifications/initialized] notification, and the tool
    request, which carries the second id after the counter. *)
Theorem call_tool_handshakes_first
  (tool_name : string) (arguments : value) (w : World) :
  _initialized (self w) = false ->
  exists mid,
    let first := next_request "initialize"
                   (Some (initialize_params (entity (self w)))) false w in
    let last := next_request "tools/call"
                  (Some (tool_params tool_name arguments)) false
                  (after_guard w) in
    sent (snd (_call_tool tool_name arguments w))
    = (sent w ++ first :: mid ++ [last])%list
    /\ (mid = []
        \/ exists n, mid = [n]
                     /\ method_of n = Some "notifications/initialized"
                     /\ id_of n = [])
    /\ id_of first = [_request_id (self w) + 1]
    /\ id_of last = [_request_id (self w) + 2].
Proof.
  intro Hnot. rewrite call_tool_unfold.
  pose proof (mcp_request_sent "tools/call"
                (Some (tool_params tool_name arguments)) false
                (after_guard w)) as Hlast.
  pose proof (id_of_next_request "tools/call"
                (Some (tool_params tool_name arguments)) false
                (after_guard w)) as Hid.
  assert (Hguard :
    exists mid,
      sent (after_guard w)
      = (sent w ++ next_request "initialize"
                     (Some (initialize_params (entity (self w)))) false w
                :: mid)%list
      /\ (mid = []
          \/ exists n, mid = [n]
                       /\ method_of n = Some "notifications/initialized"
                       /\ id_of n = [])
      /\ _request_id (self (after_guard w)) = _request_id (self w) + 1).
  { unfold after_guard. rewrite Hnot. rewrite connect_unfold.
    pose proof (mcp_request_sent "initialize"
                  (Some (initialize_params (entity (self w)))) false w) as H1.
    pose proof (mcp_request_request_id "initialize"
                  (Some (initialize_params (entity (self w)))) false w) as R1.
    destruct (_mcp_request "initialize" _ false w) as [[r|e] w1];
      cbn [fst snd] in *.
    - pose proof (mcp_request_sent "notifications/initialized" None true
                    (marked_ready w1)) as H2.
      pose proof (mcp_request_request_id "notifications/initialized" None
                    true (marked_ready w1)) as R2.
      exists [next_request "notifications/initialized" None true
                (marked_ready w1)].
      destruct (_mcp_request "notifications/initialized" None true _)
        as [[r'|e'] w2]; cbn [fst snd] in *;
        (split; [rewrite H2; cbn [marked_ready sent]; rewrite H1,
                   <- app_assoc; reflexivity|]);
        (split; [right; eexists; split; [reflexivity|];
                 split; reflexivity|]);
        rewrite R2; exact R1.
    - exists []. split; [exact H1|]. split; [left; reflexivity|exact R1]. }
  destruct Hguard as [mid [Hsent [Hmid Hrid]]].
  exists mid. cbv zeta.
  split; [|split; [exact Hmid|split]].
  - destruct (_mcp_request "tools/call" _ false (after_guard w))
      as [[r|e] w2]; cbn [snd] in *; rewrite Hlast, Hsent, <- app_assoc;
      reflexivity.
  - apply (id_of_next_request "initialize" _ false).
  - rewrite Hid, Hrid. f_equal. lia.
Qed.

(** X3. [close] never raises; it marks the session Disconnected, forgets
    the session id and leaves no open HTTP session, while the request
    counter, the endpoint and the log stay as they are.  Closing twice is
    the same as closing once. *)
Theorem close_resets_session (w : World) :
  let w' := snd (close w) in
  fst (close w) = Return tt
  /\ _initialized (self w') = false
  /\ _mcp_session_id (self w') = None
  /\ _session (self w') <> Some {| closed := false |}
  /\ _request_id (self w') = _request_id (self w)
  /\ mcp_url (self w') = mcp_url (self w)
  /\ sent w' = sent w
  /\ close w' = (Return tt, w').
Proof.
  cbv zeta. rewrite !close_unfold. cbn [fst snd self sent net].
  destruct w as [c n log]. cbn [self sent net].
  unfold closed_client.
  destruct c as [u e d t s sid rid ini].
  destruct s as [[[|]]|]; cbn; repeat split; discriminate.
Qed.

(** X4. Whatever became of the HTTP session before (never opened, or
    closed by [close]), a request leaves an open one behind; and the
    first request after [close] goes out without a session-id header. *)
Theorem request_reopens_session
  (method : string) (params : option value) (is_notification : bool)
  (w : World) :
  _session (self (snd (_mcp_request method params is_notification w)))
  = Some {| closed := false |}
  /\ req_headers (next_request method params is_notification (snd (close w)))
     = plain_headers
  /\ _session (self (snd (_mcp_request method params is_notification
                            (snd (close w)))))
     = Some {| closed := false |}.
Proof.
  assert (Hopen : forall w0,
            _session (self (snd (_mcp_request method params
                                   is_notification w0)))
            = Some {| closed := false |}).
  { intro w0. rewrite mcp_request_unfold. cbn zeta.
    destruct w0 as [[u e0 d t s sid rid ini] n log].
    destruct (session_post _ _) as [[resp|e] n']; cbn [snd self];
      unfold store_session_id, prepared, with_session;
      [destruct (truthy_str (resp_session_id resp))|];
      destruct is_notification; destruct s as [[[|]]|]; reflexivity. }
  split; [apply Hopen|]. split; [|apply Hopen].
  rewrite close_unfold. cbn [snd]. unfold next_request, closed_client.
  cbn [self req_headers].
  destruct (_session (self w)) as [[[|]]|]; reflexivity.
Qed.

Lemma NoDup_map_of_nat (l : list nat) : NoDup l -> NoDup (map Z.of_nat l).
Proof.
  induction 1 as [|x l Hx _ IH]; cbn; constructor; [|exact IH].
  intro Hin. apply in_map_iff in Hin. destruct Hin as [y [Hy Hin]].
  apply Nat2Z.inj in Hy. subst y. contradiction.
Qed.

(** X7. Request ids are never reused: after any sequence of uses of a
    newly constructed client, the ids that were sent are pairwise
    distinct. *)
Theorem request_ids_never_reused
  (url ent dev_id dev_type : string) (n0 : Net) (calls : list call) :
  NoDup (ids_sent
           (sent (run calls {| self := __init__ url ent dev_id dev_type;
                               net := n0; sent := [] |}))).
Proof.
  destruct (counted_run calls
              {| self := __init__ url ent dev_id dev_type;
                 net := n0; sent := [] |}) as [k [_ Hids]].
  { exists O. split; reflexivity. }
  rewrite Hids.
  apply NoDup_map_of_nat, seq_NoDup.
Qed.

(** X8. A body is not read when it need not be: once the POST is answered,
    a notification returns [None], and so does a request answered with
    status 202 or 204, whatever the content type and the body. *)
Theorem unread_body_gives_none
  (method : string) (params : option value) (is_notification : bool)
  (w : World) (resp : Response) (n' : Net) :
  session_post (net w) (next_request method params is_notification w)
    = (Return resp, n') ->
  is_notification = true \/ resp_status resp = 202 \/ resp_status resp = 204 ->
  fst (_mcp_request method params is_notification w) = Return VNone.
Proof.
  intros Hpost H. rewrite mcp_request_unfold. cbn zeta. rewrite Hpost.
  cbn [fst]. unfold decode_result.
  destruct H as [-> | [-> | ->]]; [reflexivity| |].
  - rewrite Z.eqb_refl, orb_true_r. reflexivity.
  - rewrite Z.eqb_refl, orb_true_r. reflexivity.
Qed.

(** X9. The plain-JSON branch on documents that are not a JSON-RPC answer:
    an object with neither a [result] nor an [error] key is returned as it
    is; a document that is [null], a boolean or a number raises
    [TypeError]; and the exception of [resp.json()] itself comes out
    unchanged. *)
Theorem plain_json_fallback
  (method : string) (params : option value) (w : World) (resp : Response)
  (n' : Net) :
  session_post (net w) (next_request method params false w)
    = (Return resp, n') ->
  resp_status resp <> 202 ->
  resp_status resp <> 204 ->
  str_in "text/event-stream" (or_empty (resp_content_type resp)) = false ->
  let out := fst (_mcp_request method params false w) in
  (forall d, resp_json resp = Return (VDict d) -> bearing d = false ->
             out = Return (VDict d))
  /\ (forall v, resp_json resp = Return v -> is_scalar v = true ->
                out = Raise TypeError)
  /\ (forall e, resp_json resp = Raise e -> out = Raise e).
Proof.
  intros Hpost H2 H4 Hplain out. subst out.
  rewrite (mcp_request_answered method params w resp n' Hpost),
    (decode_result_body resp H2 H4), Hplain.
  split; [|split].
  - intros d -> Hb. cbn [res_bind]. rewrite extract_result_object.
    unfold bearing in Hb. apply orb_false_iff in Hb. destruct Hb as [Hr He].
    apply has_key_lookup in Hr. apply has_key_lookup in He.
    unfold document_outcome. rewrite Hr, He. reflexivity.
  - intros v -> Hs. destruct v; try discriminate; reflexivity.
  - intros e ->. reflexivity.
Qed.

(** X10. The SSE scan does not skip a frame it cannot decode: a [data: ]
    line that is not JSON, met before any frame carrying [result] or
    [error], makes the request raise [JSONDecodeError], whatever comes
    after it in the stream. *)
Theorem sse_undecodable_frame_aborts
  (method : string) (params : option value) (w : World) (resp : Response)
  (n' : Net) (body : string) (pre post : list string) (line : string) :
  session_post (net w) (next_request method params false w)
    = (Return resp, n') ->
  resp_status resp <> 202 ->
  resp_status resp <> 204 ->
  str_in "text/event-stream" (or_empty (resp_content_type resp)) = true ->
  resp_text resp = Return body ->
  str_split LF body = (pre ++ line :: post)%list ->
  Forall passed_over pre ->
  startswith "data: " line = true ->
  json_loads (str_drop 6 line) = None ->
  fst (_mcp_request method params false w) = Raise JSONDecodeError.
Proof.
  intros Hpost H2 H4 Hsse Hbody Hsplit Hpre Hdata Hbad.
  rewrite (mcp_request_answered method params w resp n' Hpost),
    (decode_result_body resp H2 H4), Hsse, Hbody.
  cbn [res_bind]. rewrite Hsplit, (sse_scan_passed_over pre _ Hpre).
  cbn [sse_scan]. rewrite Hdata, Hbad. reflexivity.
Qed.

(** X11. A POST that fails raises its own exception out of
    [_mcp_request]; the stored session id and the Ready flag are as
    before, the request is in the log, and a request (not a notification)
    has still used up its id. *)
Theorem failed_post_propagates
  (method : string) (params : option value) (is_notification : bool)
  (w : World) (e : exn) (n' : Net) :
  session_post (net w) (next_request method params is_notification w)
    = (Raise e, n') ->
  let w' := snd (_mcp_request method params is_notification w) in
  fst (_mcp_request method params is_notification w) = Raise e
  /\ _mcp_session_id (self w') = _mcp_session_id (self w)
  /\ _initialized (self w') = _initialized (self w)
  /\ sent w' = (sent w ++ [next_request method params is_notification w])%list
  /\ _request_id (self w')
     = (if is_notification then _request_id (self w)
        else _request_id (self w) + 1).
Proof.
  intros Hpost w'. subst w'.
  rewrite mcp_request_unfold. cbn zeta. rewrite Hpost. cbn [fst snd self sent].
  repeat split.
  - apply prepared_mcp_session_id.
  - apply prepared_initialized.
  - apply prepared_request_id.
Qed.

End Session.

(** *** Invariants of the request log *)

Section LogInvariant.
Context {remote : Remote} {jsonlib : JsonLib}.
Variable keeps : MemoRableClient -> Prop.
Variable good : Request -> Prop.
Hypothesis keeps_prepared :
  forall n c, keeps c -> keeps (prepared n c).
Hypothesis keeps_store :
  forall r c, keeps c -> keeps (store_session_id r c).
Hypothesis keeps_ready :
  forall c, keeps c -> keeps (set_initialized true c).
Hypothesis good_next :
  forall m p n w, keeps (self w) -> good (next_request m p n w).

Lemma grows_refl (w : World) : keeps (self w) -> grows keeps good w w.
Proof.
  intro H. split; [exact H|]. exists []. split; [|constructor].
  now rewrite app_nil_r.
Qed.

Lemma grows_trans (w1 w2 w3 : World) :
  grows keeps good w1 w2 -> grows keeps good w2 w3 -> grows keeps good w1 w3.
Proof.
  intros [_ [n1 [H1 F1]]] [K [n2 [H2 F2]]]. split; [exact K|].
  exists (n1 ++ n2)%list. split.
  - rewrite H2, H1, app_assoc. reflexivity.
  - apply Forall_app. split; assumption.
Qed.

Lemma grows_mcp_request (m : string) (p : option value) (n : bool)
  (w : World) :
  keeps (self w) -> grows keeps good w (snd (_mcp_request m p n w)).
Proof.
  intro H. split.
  - rewrite mcp_request_unfold. cbn zeta.
    destruct (session_post _ _) as [[resp|e] n']; cbn [snd self]; auto.
  - exists [next_request m p n w]. split; [apply mcp_request_sent|].
    constructor; [auto|constructor].
Qed.

Lemma grows_connect (w : World) :
  keeps (self w) -> grows keeps good w (snd (connect w)).
Proof.
  intro H. rewrite connect_unfold.
  pose proof (grows_mcp_request "initialize"
                (Some (initialize_params (entity (self w)))) false w H) as G1.
  destruct (_mcp_request "initialize" _ false w) as [[r|e] w1];
    cbn [snd] in *; [|exact G1].
  assert (Gm : grows keeps good w1 (marked_ready w1)).
  { destruct G1 as [K _]. split; [cbn; auto|].
    exists []. split; [cbn; now rewrite app_nil_r|constructor]. }
  pose proof (grows_mcp_request "notifications/initialized" None true
                (marked_ready w1) (proj1 Gm)) as G2.
  destruct (_mcp_request "notifications/initialized" None true _)
    as [[r'|e'] w2]; cbn [snd] in *;
    exact (grows_trans _ _ _ G1 (grows_trans _ _ _ Gm G2)).
Qed.

Lemma grows_call_tool (tool_name : string) (arguments : value) (w : World) :
  keeps (self w) ->
  grows keeps good w (snd (_call_tool tool_name arguments w)).
Proof.
  intro H. rewrite call_tool_unfold.
  assert (Gg : grows keeps good w (after_guard w)).
  { unfold after_guard. destruct (_initialized (self w));
      [apply grows_refl, H|apply grows_connect, H]. }
  pose proof (grows_mcp_request "tools/call"
                (Some (tool_params tool_name arguments)) false
                (after_guard w) (proj1 Gg)) as G.
  destruct (_mcp_request "tools/call" _ false (after_guard w))
    as [[r|e] w2]; cbn [snd] in *; exact (grows_trans _ _ _ Gg G).
Qed.

Lemma grows_close (w : World) :
  (forall c, keeps c -> keeps (closed_client c)) ->
  keeps (self w) -> grows keeps good w (snd (close w)).
Proof.
  intros Hc H. rewrite close_unfold. cbn [snd]. split; [cbn; auto|].
  exists []. split; [cbn; now rewrite app_nil_r|constructor].
Qed.

Lemma grows_run (calls : list call) (w : World) :
  (existsb is_close calls = true ->
   forall c, keeps c -> keeps (closed_client c)) ->
  keeps (self w) -> grows keeps good w (run calls w).
Proof.
  revert w. induction calls as [|c calls IH]; intros w Hc H.
  - apply grows_refl, H.
  - cbn [run fold_left].
    assert (G : grows keeps good w (perform c w)).
    { destruct c; cbn [perform].
      - apply grows_mcp_request, H.
      - apply grows_mcp_request, H.
      - apply grows_connect, H.
      - apply grows_call_tool, H.
      - apply grows_close; [apply Hc; reflexivity|exact H]. }
    apply (grows_trans _ _ _ G). apply IH; [|exact (proj1 G)].
    intro He. apply Hc. cbn [existsb]. rewrite He. apply orb_true_r.
Qed.

End LogInvariant.

Section LogProperties.
Context {remote : Remote} {jsonlib : JsonLib}.

(** X5. Once a session id is known it goes out with every request until
    [close]: over any sequence of requests, notifications, [connect] and
    tool calls that contains no [close], starting with a non-empty stored
    id, every request posted carries a non-empty [Mcp-Session-Id] header
    and a non-empty id is still stored at the end. *)
Theorem session_header_persists_until_close
  (calls : list call) (w : World) :
  truthy_str (_mcp_session_id (self w)) = true ->
  existsb is_close calls = false ->
  truthy_str (_mcp_session_id (self (run calls w))) = true
  /\ exists new,
       sent (run calls w) = (sent w ++ new)%list
       /\ Forall carries_session new.
Proof.
  intros Hsid Hno.
  apply (grows_run
           (fun c => truthy_str (_mcp_session_id c) = true)
           carries_session); auto.
  - intros n c H. now rewrite prepared_mcp_session_id.
  - intros r c H. unfold store_session_id.
    destruct (truthy_str (resp_session_id r)) eqn:Hr; [exact Hr|exact H].
  - intros m p n w0 H. unfold carries_session, next_request, request_headers.
    cbn [req_headers]. rewrite H.
    destruct (_mcp_session_id (self w0)) as [[|a sid]|]; try discriminate.
    exists (String a sid). split; [discriminate|]. cbn. auto.
  - rewrite Hno. discriminate.
Qed.

(** X6. Every request the client posts, over any sequence of uses
    ([close] included), goes to the client's [mcp_url], is a JSON-RPC
    2.0 envelope, and carries the [Content-Type] and [Accept] headers;
    no operation changes the endpoint. *)
Theorem every_request_is_well_addressed (calls : list call) (w : World) :
  mcp_url (self (run calls w)) = mcp_url (self w)
  /\ exists new,
       sent (run calls w) = (sent w ++ new)%list
       /\ Forall (well_addressed (mcp_url (self w))) new.
Proof.
  apply (grows_run
           (fun c => mcp_url c = mcp_url (self w))
           (well_addressed (mcp_url (self w)))); auto.
  - intros n c H. rewrite <- H. apply prepared_identity.
  - intros r c H. unfold store_session_id.
    destruct (truthy_str (resp_session_id r)); exact H.
  - intros m p n w0 H. unfold well_addressed, next_request, envelope,
      request_headers. cbn [req_url req_json req_headers].
    split; [exact H|]. split; [eexists; split; reflexivity|].
    split; cbn; auto.
  - intros _ c H. unfold closed_client.
    destruct (_session c) as [[[|]]|]; exact H.
Qed.

End LogProperties.

(** ** Properties of the normalizers *)

Section MoreNormalizers.
Context {dt : DatetimeLib} {fl : FloatLib}.


(** Whenever [Memory.from_dict] returns, every field but the timestamp is
    read off the map by its alias list. *)
Lemma memory_from_dict_fields (now : datetime) (data : list (string * value))
  (m : Memory.t) :
  Memory.from_dict now data = Return m ->
  exists ts,
    m = {| Memory.id :=
             dict_get data "_id"
               (dict_get data "id"
                  (dict_get data "memoryId" (VStr EmptyString)));
           Memory.content :=
             dict_get data "content"
               (dict_get data "text" (VStr EmptyString));
           Memory.salience :=
             dict_get data "salience"
               (dict_get data "salience_score"
                  (dict_get data "salienceScore" (VInt 50)));
           Memory.timestamp := ts;
           Memory.entity := dict_get data "entity" VNone;
           Memory.context := dict_get data "context" (VDict []) |}.
Proof.
  unfold Memory.from_dict. intro H.
  destruct (dict_get data "timestamp"
              (dict_get data "createdAt" (VStr (isoformat now))))
    as [| | | |s| |]; cbn in H;
    try (injection H as <-; eexists; reflexivity).
  destruct (fromisoformat (str_replace "Z" "+00:00" s)); cbn in H;
    [injection H as <-; eexists; reflexivity|discriminate].
Qed.



End MoreNormalizers.

(** ** Properties of the facade *)

Section FacadeProperties.
Context {remote : Remote} {jsonlib : JsonLib} {dt : DatetimeLib}
  {fl : FloatLib} {prober : Prober}.

(** A tool call on a Ready session posts one request. *)
Lemma call_tool_ready (tool_name : string) (arguments : value) (w : World) :
  _initialized (self w) = true ->
  _call_tool tool_name arguments w =
  match _mcp_request "tools/call" (Some (tool_params tool_name arguments))
          false w with
  | (Return result, w2) => (unwrap_content result, w2)
  | (Raise e, w2) => (Raise e, w2)
  end.
Proof.
  intro H. rewrite call_tool_unfold. unfold after_guard. now rewrite H.
Qed.

Lemma call_tool_ready_sent (tool_name : string) (arguments : value)
  (w : World) :
  _initialized (self w) = true ->
  sent (snd (_call_tool tool_name arguments w))
  = (sent w ++ [next_request "tools/call"
                  (Some (tool_params tool_name arguments)) false w])%list.
Proof.
  intro H. rewrite (call_tool_ready _ _ _ H).
  pose proof (mcp_request_sent "tools/call"
                (Some (tool_params tool_name arguments)) false w) as Hs.
  destruct (_mcp_request "tools/call" _ false w) as [[r|e] w2]; exact Hs.
Qed.

(** A tool call answered without content returns [None]. *)
Lemma call_tool_no_content (tool_name : string) (arguments : value)
  (w : World) :
  _initialized (self w) = true ->
  (forall rq, exists resp n',
      session_post (net w) rq = (Return resp, n')
      /\ (resp_status resp = 202 \/ resp_status resp = 204)) ->
  fst (_call_tool tool_name arguments w) = Return VNone.
Proof.
  intros Hready Hsrv. rewrite (call_tool_ready _ _ _ Hready).
  destruct (Hsrv (next_request "tools/call"
                    (Some (tool_params tool_name arguments)) false w))
    as [resp [n' [Hpost Hst]]].
  rewrite mcp_request_unfold. cbn zeta. rewrite Hpost.
  unfold decode_result. cbn [orb].
  destruct Hst as [-> | ->]; rewrite Z.eqb_refl, ?orb_true_r; reflexivity.
Qed.

(** [health_check] in closed form. *)
Lemma health_check_unfold (w : World) :
  health_check w =
  match session_get (net w)
          (str_replace "/mcp" "/health" (mcp_url (self w))) with
  | (Return st, n') =>
      (Return (st =? 200),
       {| self := with_session (self w); net := n'; sent := sent w |})
  | (Raise _, n') =>
      (Return false,
       {| self := with_session (self w); net := n'; sent := sent w |})
  end.
Proof.
  unfold health_check, try_except, bind, _get_session, get_self,
    modify_self, get, ret, with_session.
  destruct w as [[u e d t s sid rid ini] n log]. cbn [self net sent mcp_url].
  destruct s as [[[|]]|]; cbn -[str_replace];
    destruct (session_get n (str_replace "/mcp" "/health" u))
      as [[st|ex] n']; reflexivity.
Qed.

(** X15. [health_check] never raises: it returns [True] exactly when the
    GET of the health URL (the endpoint with every [/mcp] replaced by
    [/health]) is answered with status 200, and [False] for any other
    status and for any exception.  It posts nothing and leaves the request
    counter, the session id and the Ready flag as they were. *)
Theorem health_check_is_a_safe_probe (w : World) :
  let url := str_replace "/mcp" "/health" (mcp_url (self w)) in
  let w' := snd (health_check w) in
  (exists b, fst (health_check w) = Return b
             /\ (b = true <-> fst (session_get (net w) url) = Return 200))
  /\ sent w' = sent w
  /\ _request_id (self w') = _request_id (self w)
  /\ _mcp_session_id (self w') = _mcp_session_id (self w)
  /\ _initialized (self w') = _initialized (self w).
Proof.
  cbv zeta. rewrite health_check_unfold.
  destruct (session_get (net w) _) as [[st|ex] n']; cbn [fst snd self sent].
  - split.
    + exists (st =? 200). split; [reflexivity|]. split.
      * intro H. apply Z.eqb_eq in H. now subst.
      * intro H. injection H as ->. reflexivity.
    + split; [reflexivity|]. split; [apply (prepared_request_id true)|].
      split; [apply (prepared_mcp_session_id true)
             |apply (prepared_initialized true)].
  - split.
    + exists false. split; [reflexivity|]. split; discriminate.
    + split; [reflexivity|]. split; [apply (prepared_request_id true)|].
      split; [apply (prepared_mcp_session_id true)
             |apply (prepared_initialized true)].
Qed.


(** X17. On a Ready session [store] posts one [tools/call] request for
    the tool [store_memory].  Its arguments are [text] and [securityTier],
    plus [context] only when a non-empty context was given: no context and
    the empty context post the same request. *)
Theorem store_omits_empty_context
  (content security_tier : string) (w : World) :
  _initialized (self w) = true ->
  let bare := VDict [("text", VStr content);
                     ("securityTier", VStr security_tier)] in
  (forall context, context = None \/ context = Some [] ->
      sent (snd (store content context security_tier w))
      = (sent w ++ [next_request "tools/call"
                      (Some (tool_params "store_memory" bare)) false w])%list)
  /\ (forall f fs,
        sent (snd (store content (Some (f :: fs)) security_tier w))
        = (sent w ++ [next_request "tools/call"
                        (Some (tool_params "store_memory"
                                 (VDict [("text", VStr content);
                                         ("securityTier", VStr security_tier);
                                         ("context", VDict (f :: fs))])))
                        false w])%list).
Proof.
  intros Hready bare.
  assert (Hs : forall context,
             sent (snd (store content context security_tier w))
             = sent (snd (_call_tool "store_memory"
                            (store_args content context security_tier) w))).
  { intro context. unfold store, bind, ret.
    destruct (_call_tool "store_memory" _ w) as [[[]|] ?]; reflexivity. }
  split.
  - intros context [-> | ->]; rewrite Hs, (call_tool_ready_sent _ _ _ Hready);
      reflexivity.
  - intros f fs. rewrite Hs, (call_tool_ready_sent _ _ _ Hready). reflexivity.
Qed.

(** X18. What [recall] makes of the tool result.  A result that is neither
    a list nor a map with a [memories] member gives the empty list.  For a
    list, whenever [recall] returns it returns one Memory per item, in the
    order of the items, each item being a map whose [content] (or [text])
    the Memory holds; and a list with an item that is not a map makes
    [recall] raise. *)
Theorem recall_shapes_its_result
  (clock : nat -> datetime) (query : string) (limit : Z)
  (min_salience : number) (w w' : World) (result : value) :
  _call_tool "recall" (recall_args query limit min_salience) w
    = (Return result, w') ->
  let out := fst (recall clock query limit min_salience w) in
  ((forall items, result <> VList items) ->
   (forall d, result = VDict d -> has_key "memories" d = false) ->
   out = Return [])
  /\ (forall items ms, result = VList items -> out = Return ms ->
        Forall2 (fun item m =>
                   exists d, item = VDict d
                             /\ Memory.content m
                                = dict_get d "content"
                                    (dict_get d "text" (VStr EmptyString)))
          items ms)
  /\ (forall items, result = VList items ->
        existsb (fun item => negb (is_dict item)) items = true ->
        exists e, out = Raise e).
Proof.
  intros Hcall out. subst out. unfold recall, bind. rewrite Hcall.
  assert (Hmap : forall items i ms,
             memories_from clock i items = Return ms ->
             Forall2 (fun item m =>
                        exists d, item = VDict d
                                  /\ Memory.content m
                                     = dict_get d "content"
                                         (dict_get d "text"
                                            (VStr EmptyString)))
               items ms).
  { induction items as [|item items IH]; intros i ms H; cbn in H.
    - injection H as <-. constructor.
    - destruct item as [| | | | | |d]; cbn in H; try discriminate.
      destruct (Memory.from_dict (clock i) d) as [m|e] eqn:Hm; cbn in H;
        [|discriminate].
      destruct (memories_from clock (S i) items) as [ms'|e] eqn:Hms;
        cbn in H; [|discriminate].
      injection H as <-. constructor; [|exact (IH _ _ Hms)].
      exists d. split; [reflexivity|].
      destruct (memory_from_dict_fields (clock i) d m Hm) as [ts ->].
      reflexivity. }
  assert (Hbad : forall items i,
             existsb (fun item => negb (is_dict item)) items = true ->
             exists e, memories_from clock i items = Raise e).
  { induction items as [|item items IH]; intros i H; cbn in H;
      [discriminate|].
    cbn [memories_from].
    destruct item as [| | | | | |d]; cbn; eauto.
    cbn in H. destruct (Memory.from_dict (clock i) d); cbn; eauto.
    destruct (IH (S i) H) as [e He]. rewrite He. cbn. eauto. }
  split; [|split].
  - intros Hnl Hnm. destruct result as [| | | | |items|d]; try reflexivity.
    + exfalso. apply (Hnl items). reflexivity.
    + rewrite (Hnm d eq_refl). reflexivity.
  - intros items ms -> H. cbn in H. exact (Hmap _ _ _ H).
  - intros items -> H. cbn. exact (Hbad _ _ H).
Qed.

End FacadeProperties.

Section MoreFacadeProperties.
Context {remote : Remote} {jsonlib : JsonLib} {dt : DatetimeLib}
  {fl : FloatLib} {prober : Prober}.

Lemma briefing_from_dict_person (d : list (string * value)) (b : Briefing.t) :
  Briefing.from_dict d = Return b ->
  Briefing.person b = dict_get d "person" (VStr EmptyString).
Proof.
  unfold Briefing.from_dict. intro H.
  match type of H with
  | res_bind ?x _ = _ => destruct x as [last|e]; cbn in H; [|discriminate]
  end.
  injection H as <-. reflexivity.
Qed.

(** X19. [get_briefing] gives no briefing unless the tool result is a map
    with a truthy [person]: a result that is not a map, a map without
    [person], and a map whose [person] is falsy (the empty string, [null])
    all give [None], not a zero-valued record.  A briefing that is
    returned carries that truthy [person]. *)
Theorem get_briefing_needs_a_person
  (person : string) (quick : bool) (w w' : World) (result : value) :
  _call_tool "get_briefing" (get_briefing_args person quick) w
    = (Return result, w') ->
  let out := fst (get_briefing person quick w) in
  (is_dict result = false -> out = Return None)
  /\ (forall d, result = VDict d -> lookup "person" d = None ->
                out = Return None)
  /\ (forall d, result = VDict d ->
                truthy (dict_get d "person" VNone) = false ->
                out = Return None)
  /\ (forall d b, result = VDict d -> out = Return (Some b) ->
                  Briefing.person b = dict_get d "person" VNone
                  /\ truthy (Briefing.person b) = true).
Proof.
  intros Hcall out. subst out. unfold get_briefing, bind. rewrite Hcall.
  split; [|split; [|split]].
  - destruct result; try reflexivity. discriminate.
  - intros d -> Hp. unfold dict_get. rewrite Hp. reflexivity.
  - intros d -> Hp. rewrite Hp. reflexivity.
  - intros d b -> H.
    destruct (truthy (dict_get d "person" VNone)) eqn:Ht;
      [|discriminate].
    unfold lift, ret in H.
    destruct (Briefing.from_dict d) as [b'|e] eqn:Hb; cbn in H;
      [|discriminate].
    injection H as <-.
    rewrite (briefing_from_dict_person d b' Hb).
    unfold dict_get in *. destruct (lookup "person" d); [auto|discriminate].
Qed.

(** X20. [list_loops] and [get_predictions] shape a result differently.
    [list_loops] returns a list result as it is, the [loops] member of a
    map that has one (whatever its type), and the empty list otherwise.
    [get_predictions] returns the [predictions] member of a map that has
    one and the empty list otherwise, so a result that is itself a list
    is dropped. *)
Theorem loops_and_predictions_shapes (w : World) (result : value) :
  (forall person w',
      _call_tool "list_loops" (list_loops_args person) w
        = (Return result, w') ->
      let out := fst (list_loops person w) in
      (forall l, result = VList l -> out = Return (VList l))
      /\ (forall d v, result = VDict d -> lookup "loops" d = Some v ->
                      out = Return v)
      /\ ((forall l, result <> VList l) ->
          (forall d, result = VDict d -> lookup "loops" d = None) ->
          out = Return (VList [])))
  /\ (forall topics w',
        _call_tool "get_predictions"
          (get_predictions_args (device_type (self w)) topics) w
          = (Return result, w') ->
        let out := fst (get_predictions topics w) in
        (forall l, result = VList l -> out = Return (VList []))
        /\ (forall d v, result = VDict d ->
                        lookup "predictions" d = Some v -> out = Return v)
        /\ ((forall d, result = VDict d -> lookup "predictions" d = None) ->
            out = Return (VList []))).
Proof.
  split.
  - intros person w' Hcall out. subst out. unfold list_loops, bind.
    rewrite Hcall. split; [|split].
    + intros l ->. reflexivity.
    + intros d v -> Hl. unfold has_key. rewrite Hl. cbn. rewrite Hl.
      reflexivity.
    + intros Hnl Hnd. destruct result as [| | | | |l|d]; try reflexivity.
      * exfalso. apply (Hnl l). reflexivity.
      * unfold has_key. rewrite (Hnd d eq_refl). reflexivity.
  - intros topics w' Hcall out. subst out.
    unfold get_predictions, bind, get_self. cbn [fst snd]. rewrite Hcall.
    split; [|split].
    + intros l ->. reflexivity.
    + intros d v -> Hl. unfold has_key. rewrite Hl. cbn. rewrite Hl.
      reflexivity.
    + intros Hnd. destruct result as [| | | | |l|d]; try reflexivity.
      unfold has_key. rewrite (Hnd d eq_refl). reflexivity.
Qed.

(** X21. An answer without content degrades to empty results everywhere
    and raises nowhere: on a Ready session whose tool calls are answered
    with status 202 or 204, [store] and [get_briefing] return [None],
    [recall], [list_loops] and [get_predictions] return the empty list,
    [set_context] and [get_status] the empty map, and [forget],
    [clear_context] and [close_loop] return [False]. *)
Theorem no_content_gives_empty_results (w : World) :
  _initialized (self w) = true ->
  (forall rq, exists resp n',
      session_post (net w) rq = (Return resp, n')
      /\ (resp_status resp = 202 \/ resp_status resp = 204)) ->
  (forall content context tier,
      fst (store content context tier w) = Return VNone)
  /\ (forall person quick, fst (get_briefing person quick w) = Return None)
  /\ (forall clock query limit min_salience,
        fst (recall clock query limit min_salience w) = Return [])
  /\ (forall person, fst (list_loops person w) = Return (VList []))
  /\ (forall topics, fst (get_predictions topics w) = Return (VList []))
  /\ (forall location people activity,
        fst (set_context location people activity w) = Return (VDict []))
  /\ fst (get_status w) = Return (VDict [])
  /\ (forall memory_id mode, fst (forget memory_id mode w) = Return false)
  /\ fst (clear_context w) = Return false
  /\ (forall loop_id note, fst (close_loop loop_id note w) = Return false).
Proof.
  intros Hready Hsrv.
  assert (Hnone : forall name args,
             exists w2, _call_tool name args w = (Return VNone, w2)).
  { intros name args.
    pose proof (call_tool_no_content name args w Hready Hsrv) as H.
    destruct (_call_tool name args w) as [r w2]. cbn in H. subst r.
    eauto. }
  unfold store, get_briefing, recall, list_loops, get_predictions,
    set_context, get_status, forget, clear_context, close_loop, bind,
    get_self, ret.
  repeat split; intros;
    match goal with
    | |- context [_call_tool ?n ?a w] =>
        destruct (Hnone n a) as [w2 ->]; reflexivity
    end.
Qed.

(** X22. When the service is not reachable, [on_startup] returns the empty
    map without posting anything: if the probe of the singleton's health
    URL raises or is answered with a status other than 200, no handshake
    and no tool call is attempted, and the singleton exists afterwards. *)
Theorem on_startup_without_service
  (MCP_URL : string) (location : option string) (p : Program) :
  fst (session_get (program_net p)
         (str_replace "/mcp" "/health" (mcp_url (the_singleton MCP_URL p))))
    <> Return 200 ->
  let p' := snd (on_startup MCP_URL location p) in
  fst (on_startup MCP_URL location p) = Return (VDict [])
  /\ program_sent p' = program_sent p
  /\ exists c, the_client p' = Some c
               /\ _initialized c = _initialized (the_singleton MCP_URL p)
               /\ _request_id c = _request_id (the_singleton MCP_URL p).
Proof.
  intros Hdown p'. subst p'.
  unfold on_startup, on_singleton, bind.
  rewrite health_check_unfold.
  cbn [singleton_world self net sent] in *.
  destruct (session_get (program_net p) _) as [[st|ex] n'] eqn:Hget;
    cbn [fst] in Hdown.
  - destruct (Z.eqb_spec st 200) as [->|Hne]; [contradiction|].
    cbn. split; [reflexivity|]. split; [reflexivity|].
    eexists. split; [reflexivity|].
    split; [apply (prepared_initialized true)
           |apply (prepared_request_id true)].
  - cbn. split; [reflexivity|]. split; [reflexivity|].
    eexists. split; [reflexivity|].
    split; [apply (prepared_initialized true)
           |apply (prepared_request_id true)].
Qed.

(** X23. [on_conversation_end] without a person stores the summary without
    a context: for a person that is [None] or the empty string, a Ready
    singleton posts one [store_memory] call whose arguments are the
    summary and the default security tier only; with a person, the
    context names that person. *)
Theorem on_conversation_end_context
  (MCP_URL : string) (summary : string) (p : Program) :
  _initialized (the_singleton MCP_URL p) = true ->
  let posted context :=
    (program_sent p
     ++ [next_request "tools/call"
           (Some (tool_params "store_memory"
                    (VDict ([("text", VStr summary);
                             ("securityTier", VStr "Tier2_Personal")]
                            ++ context))))
           false (singleton_world MCP_URL p)])%list in
  (forall person, person = None \/ person = Some EmptyString ->
      program_sent (snd (on_conversation_end MCP_URL person summary p))
      = posted [])
  /\ (forall a s,
        program_sent
          (snd (on_conversation_end MCP_URL (Some (String a s)) summary p))
        = posted [("context", VDict [("person", VStr (String a s))])]).
Proof.
  intros Hready posted. subst posted.
  assert (Hs : forall context,
             program_sent
               (snd (on_singleton MCP_URL
                       (store summary context "Tier2_Personal") p))
             = sent (snd (_call_tool "store_memory"
                            (store_args summary context "Tier2_Personal")
                            (singleton_world MCP_URL p)))).
  { intro context. unfold on_singleton, store, bind, ret.
    destruct (_call_tool "store_memory" _ _) as [[[]|] ?]; reflexivity. }
  split.
  - intros person [-> | ->]; unfold on_conversation_end; cbn [truthy_str];
      rewrite Hs, (call_tool_ready_sent _ _ (singleton_world MCP_URL p) Hready); reflexivity.
  - intros a s. unfold on_conversation_end. cbn [truthy_str or_empty].
    rewrite Hs, (call_tool_ready_sent _ _ (singleton_world MCP_URL p) Hready). reflexivity.
Qed.

End MoreFacadeProperties.

(** ** The further properties at concrete inputs *)

(** X1, witness: a handshake that goes through. *)
Lemma connect_never_raises_witness :
  fst (@connect scripted json_lite (fresh [init_ok; accepted])) = Return true
  /\ _initialized
       (self (snd (@connect scripted json_lite (fresh [init_ok; accepted]))))
     = true.
Proof.
  destruct (connect_never_raises (remote := scripted) (jsonlib := json_lite)
              (fresh [init_ok; accepted])) as [b [Hb Htrue]].
  change (Return true = Return b) in Hb. injection Hb as <-.
  split; [reflexivity|]. exact (proj1 (Htrue eq_refl)).
Defined.

(** X2, witness: a first tool call on a new client. *)
Lemma call_tool_handshakes_first_witness :
  let w := fresh [init_ok; accepted; tool_answer (text_block "ok")] in
  _initialized (self w) = false
  /\ exists mid,
       sent (snd (@_call_tool scripted json_lite "recall" (VDict []) w))
       = (sent w
          ++ next_request "initialize"
               (Some (initialize_params (entity (self w)))) false w
          :: mid
          ++ [next_request "tools/call"
                (Some (tool_params "recall" (VDict []))) false
                (after_guard (jsonlib := json_lite) w)])%list.
Proof.
  intro w. split; [reflexivity|].
  destruct (call_tool_handshakes_first
              (remote := scripted) (jsonlib := json_lite)
              "recall" (VDict []) w eq_refl) as [mid [Hsent _]].
  exists mid. exact Hsent.
Defined.

(** X5, witness: a tool call and a notification on a connected client. *)
Lemma session_header_persists_until_close_witness :
  let w := ready [tool_answer (text_block "ok"); no_content] in
  let calls := [DoCallTool "recall" (VDict []); DoNotification "ping" None] in
  exists new,
    sent (@run scripted json_lite calls w) = (sent w ++ new)%list
    /\ Forall carries_session new.
Proof.
  intros w calls.
  exact (proj2 (session_header_persists_until_close
                  (remote := scripted) (jsonlib := json_lite)
                  calls w eq_refl eq_refl)).
Defined.

(** X8, witness: a notification answered by an error body. *)
Lemma unread_body_gives_none_witness :
  fst (@_mcp_request scripted json_lite "notifications/initialized" None true
         (fresh [Return rejection]))
  = Return VNone.
Proof.
  exact (unread_body_gives_none (remote := scripted) (jsonlib := json_lite)
           "notifications/initialized" None true (fresh [Return rejection])
           rejection [] eq_refl (or_introl eq_refl)).
Defined.

(** X9, witness: a document that is no JSON-RPC answer. *)
Lemma plain_json_fallback_witness :
  fst (@_mcp_request scripted json_lite "ping" None false
         (fresh [Return (json_response None (VDict status_document))]))
  = Return (VDict status_document).
Proof.
  refine (proj1 (plain_json_fallback (remote := scripted)
                   (jsonlib := json_lite) "ping" None
                   (fresh [Return (json_response None
                                     (VDict status_document))])
                   (json_response None (VDict status_document)) []
                   _ _ _ _)
            status_document _ _).
  - reflexivity.
  - cbn. lia.
  - cbn. lia.
  - reflexivity.
  - reflexivity.
  - reflexivity.
Defined.

(** X10, witness: a stream whose first frame is not JSON and whose second
    frame carries a result. *)
Lemma sse_undecodable_frame_aborts_witness :
  fst (@_mcp_request scripted json_lite "tools/call" None false
         (fresh [Return (sse_response None broken_stream)]))
  = Raise JSONDecodeError.
Proof.
  refine (sse_undecodable_frame_aborts
            (remote := scripted) (jsonlib := json_lite) "tools/call" None
            (fresh [Return (sse_response None broken_stream)])
            (sse_response None broken_stream) [] broken_stream
            [] ["data: " ++ result_42] "data: oops" _ _ _ _ _ _ _ _ _).
  - reflexivity.
  - cbn. lia.
  - cbn. lia.
  - reflexivity.
  - reflexivity.
  - reflexivity.
  - constructor.
  - reflexivity.
  - reflexivity.
Defined.

(** X11, witness: the first POST of a new client is dropped. *)
Lemma failed_post_propagates_witness :
  let w := fresh [dropped] in
  fst (@_mcp_request scripted json_lite "tools/list" None false w)
  = Raise (TransportError "connection reset")
  /\ _request_id
       (self (snd (@_mcp_request scripted json_lite "tools/list" None false
                     w)))
     = 1.
Proof.
  intro w.
  destruct (failed_post_propagates (remote := scripted)
              (jsonlib := json_lite) "tools/list" None false w
              (TransportError "connection reset") [] eq_refl)
    as [Hout [_ [_ [_ Hid]]]].
  split; [exact Hout|exact Hid].
Defined.




(** X15, witness: a probe answered with 200. *)
Lemma health_check_is_a_safe_probe_witness :
  fst (@health_check scripted (probe_answer (Return 200)) (fresh []))
  = Return true.
Proof.
  destruct (health_check_is_a_safe_probe
              (remote := scripted) (prober := probe_answer (Return 200))
              (fresh [])) as [[b [Hb Hiff]] _].
  rewrite Hb. f_equal. apply Hiff. reflexivity.
Defined.

(** X17, witness: a store without context on a connected client. *)
Lemma store_omits_empty_context_witness :
  let w := ready [tool_answer (VDict [("memoryId", VStr "m1")])] in
  sent (snd (@store scripted json_lite "hello" (Some []) "Tier2_Personal" w))
  = (sent w
     ++ [next_request "tools/call"
           (Some (tool_params "store_memory"
                    (VDict [("text", VStr "hello");
                            ("securityTier", VStr "Tier2_Personal")])))
           false w])%list.
Proof.
  intro w.
  exact (proj1 (store_omits_empty_context (remote := scripted)
                  (jsonlib := json_lite) "hello" "Tier2_Personal" w eq_refl)
           (Some []) (or_intror eq_refl)).
Defined.

(** X18, witness: a result listing two memories. *)
Lemma recall_shapes_its_result_witness :
  exists ms,
    fst (@recall scripted json_lite iso_lite float_lite (fun _ => a_clock)
           "hiking" 10 (NInt 0) (ready [tool_answer two_memories]))
    = Return ms
    /\ length ms = 2%nat.
Proof.
  eexists. split; [reflexivity|].
  pose (w := ready [tool_answer two_memories]).
  pose (o := @_call_tool scripted json_lite "recall"
               (recall_args (fl := float_lite) "hiking" 10 (NInt 0)) w).
  destruct (recall_shapes_its_result
              (remote := scripted) (jsonlib := json_lite) (dt := iso_lite)
              (fl := float_lite) (fun _ => a_clock) "hiking" 10 (NInt 0)
              w (snd o) two_memories eq_refl) as [_ [Hlist _]].
  symmetry. exact (Forall2_length (Hlist _ _ eq_refl eq_refl)).
Defined.

(** X19, witness: a briefing on Alan. *)
Lemma get_briefing_needs_a_person_witness :
  exists b,
    fst (@get_briefing scripted json_lite iso_lite float_lite "Alan" false
           (ready [tool_answer (VDict alan_briefing)]))
    = Return (Some b)
    /\ Briefing.person b = VStr "Alan".
Proof.
  eexists. split; [reflexivity|].
  pose (w := ready [tool_answer (VDict alan_briefing)]).
  pose (o := @_call_tool scripted json_lite "get_briefing"
               (get_briefing_args "Alan" false) w).
  exact (proj1 (proj2 (proj2 (proj2
           (get_briefing_needs_a_person
              (remote := scripted) (jsonlib := json_lite) (dt := iso_lite)
              (fl := float_lite) "Alan" false w (snd o)
              (VDict alan_briefing) eq_refl)))
           alan_briefing _ eq_refl eq_refl)).
Defined.

(** X20, witness: a result that is itself a list. *)
Lemma loops_and_predictions_shapes_witness :
  let w := ready [tool_answer (VList [VStr "call Alan"])] in
  fst (@list_loops scripted json_lite None w)
  = Return (VList [VStr "call Alan"])
  /\ fst (@get_predictions scripted json_lite None w) = Return (VList []).
Proof.
  intro w.
  pose (o := @_call_tool scripted json_lite "list_loops"
               (list_loops_args None) w).
  pose (o' := @_call_tool scripted json_lite "get_predictions"
                (get_predictions_args (device_type (self w)) None) w).
  destruct (loops_and_predictions_shapes
              (remote := scripted) (jsonlib := json_lite)
              w (VList [VStr "call Alan"])) as [Hloops Hpred].
  split.
  - exact (proj1 (Hloops None (snd o) eq_refl) _ eq_refl).
  - exact (proj1 (Hpred None (snd o') eq_refl) _ eq_refl).
Defined.

(** X21, witness: a connected client whose call is answered with 204. *)
Lemma no_content_gives_empty_results_witness :
  let w := ready [no_content] in
  fst (@forget scripted json_lite float_lite "m1" "archive" w) = Return false
  /\ fst (@recall scripted json_lite iso_lite float_lite (fun _ => a_clock)
            "hiking" 10 (NInt 0) w) = Return [].
Proof.
  intro w.
  assert (Hsrv : forall rq, exists resp n',
             @session_post scripted (net w) rq = (Return resp, n')
             /\ (resp_status resp = 202 \/ resp_status resp = 204)).
  { intro rq. eexists. eexists. split; [reflexivity|]. right. reflexivity. }
  destruct (no_content_gives_empty_results
              (remote := scripted) (jsonlib := json_lite) (dt := iso_lite)
              (fl := float_lite) w eq_refl Hsrv)
    as [_ [_ [Hrecall [_ [_ [_ [_ [Hforget _]]]]]]]].
  split; [apply Hforget|apply Hrecall].
Defined.

(** X22, witness: the probe times out in a process without a client. *)
Lemma on_startup_without_service_witness :
  let down := probe_answer (Raise (TransportError "timeout")) in
  fst (@on_startup scripted json_lite down "http://memorable.example/mcp"
         (Some "lab") (new_program []))
  = Return (VDict [])
  /\ program_sent
       (snd (@on_startup scripted json_lite down
               "http://memorable.example/mcp" (Some "lab") (new_program [])))
     = [].
Proof.
  intro down.
  destruct (on_startup_without_service
              (remote := scripted) (jsonlib := json_lite) (prober := down)
              "http://memorable.example/mcp" (Some "lab") (new_program []))
    as [Hout [Hsent _]].
  - cbn. discriminate.
  - split; [exact Hout|exact Hsent].
Defined.

(** X23, witness: a conversation that ends without a known person. *)
Lemma on_conversation_end_context_witness :
  let p := ready_program [tool_answer (VDict [("memoryId", VStr "m1")])] in
  program_sent
    (snd (@on_conversation_end scripted json_lite
            "http://memorable.example/mcp" None "talked about hiking" p))
  = (program_sent p
     ++ [next_request "tools/call"
           (Some (tool_params "store_memory"
                    (VDict [("text", VStr "talked about hiking");
                            ("securityTier", VStr "Tier2_Personal")])))
           false
           (singleton_world "http://memorable.example/mcp" p)])%list.
Proof.
  intro p.
  exact (proj1 (on_conversation_end_context
                  (remote := scripted) (jsonlib := json_lite)
                  "http://memorable.example/mcp" "talked about hiking" p
                  eq_refl)
           None (or_introl eq_refl)).
Defined.
